(** * AxisInfo: per-axis contiguity / divisibility / constancy analysis

    A shallow embedding of [lib/Analysis/AxisInfo.cpp] together with the
    properties of its lattice value, its transfer functions, its entry
    point and its alignment queries. *)

From Stdlib Require Import ZArith List Lia Bool.
From stdpp Require Import base option gmap.
Import ListNotations.

Local Open Scope Z_scope.

(** * Machine integers

    [int64_t] and [unsigned] values are carried as [Z]; every operation
    that may leave the range spells out its reduction. *)

Module Int64.

Definition modulus : Z := 2 ^ 64.
Definition half_modulus : Z := 2 ^ 63.
Definition min_signed : Z := - 2 ^ 63.
Definition max_signed : Z := 2 ^ 63 - 1.

Definition in_range (z : Z) : Prop := min_signed <= z <= max_signed.

(** Reduction of an integer to its two's-complement 64-bit value. *)
Definition wrap (z : Z) : Z :=
  (z + half_modulus) mod modulus - half_modulus.

(** [(uint64_t) z] *)
Definition to_unsigned (z : Z) : Z := z mod modulus.

Definition add (a b : Z) : Z := wrap (a + b).
Definition sub (a b : Z) : Z := wrap (a - b).
Definition mul (a b : Z) : Z := wrap (a * b).

End Int64.

(** [unsigned] is 32 bits wide on the supported targets. *)
Module UInt32.

Definition modulus : Z := 2 ^ 32.

(** Conversion of an integer to [unsigned]. *)
Definition of_Z (z : Z) : Z := z mod modulus.

End UInt32.

(** [int] is 32 bits wide; conversion from a wider integer keeps the low
    32 bits, read as a signed value. *)
Module Int32.

Definition of_Z (z : Z) : Z := (z + 2 ^ 31) mod 2 ^ 32 - 2 ^ 31.

End Int32.

(** * Outcomes of a call

    A call either returns, or leaves the defined behaviour of the
    program: an integer division whose divisor is zero (or whose quotient
    does not fit), or a point marked unreachable / asserted. *)

Inductive failure : Set :=
| DivisionByZero
| DivisionOverflow
| Unreachable
| BadCast
| MissingOperand
| NullLattice.

Inductive exec (A : Type) : Type :=
| Done (a : A)
| Crash (f : failure).

Arguments Done {A} a.
Arguments Crash {A} f.

Definition exec_bind {A B} (m : exec A) (k : A -> exec B) : exec B :=
  match m with
  | Done a => k a
  | Crash f => Crash f
  end.

Notation "x <-! m ; k" := (exec_bind m (fun x => k))
  (at level 100, m at next level, right associativity, only parsing).

Fixpoint exec_mapM {A B} (f : A -> exec B) (l : list A) : exec (list B) :=
  match l with
  | [] => Done []
  | a :: l' => b <-! f a; bs <-! exec_mapM f l'; Done (b :: bs)
  end.

Module Int64Div.

(** [a / b] on [int64_t]: truncating division, undefined for a zero
    divisor and for the one quotient that does not fit. *)
Definition sdiv (a b : Z) : exec Z :=
  if b =? 0 then Crash DivisionByZero
  else if (a =? Int64.min_signed) && (b =? -1) then Crash DivisionOverflow
  else Done (Z.quot a b).

(** [a % b] on [int64_t]. *)
Definition srem (a b : Z) : exec Z :=
  if b =? 0 then Crash DivisionByZero
  else if (a =? Int64.min_signed) && (b =? -1) then Crash DivisionOverflow
  else Done (Z.rem a b).

End Int64Div.

(** * Extended Euclidean algorithm *)

(** [gcdImpl(a, b, &x, &y)]: the result is the triple (return value, [*x],
    [*y]).  The recursion of the source is on [b % a]; here it is driven
    by a fuel argument, shown below to be always sufficient. In the
    recursive branch [a] is not zero, so [b % a] and [b / a] have a
    non-zero divisor; they are the truncated remainder and quotient
    (for [b = INT64_MIN], [a = -1] the remainder is taken as 0). The
    coefficients are computed in [int64_t]. *)
Fixpoint gcdImpl_fuel (n : nat) (a b : Z) : option (Z * Z * Z) :=
  match n with
  | O => None
  | S n' =>
      if a =? 0 then Some (b, 0, 1)
      else
        match gcdImpl_fuel n' (Z.rem b a) a with
        | Some (g, x1, y1) =>
            Some (g, Int64.sub y1 (Int64.mul (Z.quot b a) x1), x1)
        | None => None
        end
  end.

(** Number of recursive calls that is always enough: the first argument
    at least halves every two calls. *)
Definition gcd_fuel (a : Z) : nat :=
  S (2 * S (Z.to_nat (Z.log2 (Z.abs a)))).

Definition gcdImpl (a b : Z) : Z * Z * Z :=
  match gcdImpl_fuel (gcd_fuel a) a b with
  | Some r => r
  | None => (0, 0, 0)
  end.

(** [gcd(a, b)] *)
Definition gcd (a b : Z) : Z := fst (fst (gcdImpl a b)).

(** ** The algorithm with its undefined cases

    [gcdImpl] once more, with [b % a] and [b / a] as the [int64_t]
    operations they are: both are undefined when [b] is [INT64_MIN] and
    [a] is -1. [None] means that the fuel ran out. *)
Fixpoint gcdImpl_checked (n : nat) (a b : Z) : option (exec (Z * Z * Z)) :=
  match n with
  | O => None
  | S n' =>
      if a =? 0 then Some (Done (b, 0, 1))
      else
        match Int64Div.srem b a with
        | Crash f => Some (Crash f)
        | Done r =>
            match gcdImpl_checked n' r a with
            | None => None
            | Some (Crash f) => Some (Crash f)
            | Some (Done (g, x1, y1)) =>
                match Int64Div.sdiv b a with
                | Crash f => Some (Crash f)
                | Done q =>
                    Some (Done (g, Int64.sub y1 (Int64.mul q x1), x1))
                end
            end
        end
  end.

Definition gcd_checked (a b : Z) : option (exec Z) :=
  match gcdImpl_checked (gcd_fuel a) a b with
  | Some (Done r) => Some (Done (fst (fst r)))
  | Some (Crash f) => Some (Crash f)
  | None => None
  end.

(** The two pairs of [int64_t] arguments on which the recursion reaches
    [INT64_MIN % -1]. *)
Definition gcd_undefined (a b : Z) : Prop :=
  (a = -1 /\ b = Int64.min_signed) \/ (a = Int64.min_signed /\ b = -1).

(** * The instruction graph, as far as the analysis reads it *)

(** The layout attached to a tensor type: [triton::gpu::getOrder] and
    [triton::gpu::getSizePerThread] of its encoding. *)
Record Encoding : Type := mkEncoding {
  getOrder : list nat;
  getSizePerThread : list Z
}.

(** Types of values. Every tensor type of the dialect is ranked; all other
    types (integers, pointers, ...) are not tensors. *)
Inductive MType : Type :=
| RankedTensorType (shape : list Z) (encoding : Encoding)
| ScalarType.

(** The operation owning the block of a block argument. *)
Inductive ParentOp : Type :=
| FuncOp (getArgAttr : nat -> option Z)
| LLVMFuncOp (getArgAttr : nat -> option Z)
| OtherParentOp.

Record BlockArgument : Type := mkBlockArgument {
  getArgNumber : nat;
  isEntryBlock : bool;
  getParentOp : ParentOp
}.

Record Value : Type := mkValue {
  valueId : positive;
  getType : MType;
  asBlockArgument : option BlockArgument
}.

(** [arith::CmpIPredicate] *)
Module CmpIPredicate.

Inductive t : Set :=
| eq | ne | slt | sle | sgt | sge | ult | ule | ugt | uge.

End CmpIPredicate.

(** The value attribute of [arith::ConstantOp]. Integer payloads are the
    zero-extended 64-bit reading [getZExtValue()]. *)
Inductive ConstantAttr : Type :=
| IntegerAttr (v : Z)
| BoolAttr (b : bool)
| SplatElementsAttr (isIntOrIndex : bool) (v : Z) (shape : list Z)
| OtherAttr.

(** Operation kinds: the ones a visitor is registered for, with the
    static parameters the visitor reads, and all the others. *)
Inductive OpKind : Type :=
| ExtSIOp | ExtUIOp | TruncIOp | IndexCastOp | PtrToIntOp | IntToPtrOp
| ConvertLayoutOp | UnrealizedConversionCastOp | BitcastOp
| MakeRangeOp (start end_ : Z)
| ConstantOp (value : ConstantAttr)
| AddPtrOp | AddIOp | SubIOp | MulIOp
| DivSIOp | DivUIOp | RemSIOp | RemUIOp
| BroadcastOp | SplatOp | ExpandDimsOp (axis : nat)
| CmpIOp (predicate : CmpIPredicate.t)
| TritonGPUCmpIOp (predicate : CmpIPredicate.t)
| AndIOp | OrIOp | XOrIOp
| SelectOp | TritonGPUSelectOp
| UnregisteredOp.

Record Operation : Type := mkOperation {
  opKind : OpKind;
  getResults : list Value;
  operandTypes : list MType
}.

(** [op.getResult().getType()] / [*op->result_type_begin()] *)
Definition resultType (op : Operation) : MType :=
  match getResults op with
  | r :: _ => getType r
  | [] => ScalarType
  end.

(** [*op->operand_type_begin()] *)
Definition operandType (op : Operation) : MType :=
  match operandTypes op with
  | t :: _ => t
  | [] => ScalarType
  end.

(** * AxisInfo *)

(** Modelled from the spec: the class [AxisInfo] is declared in
    [AxisInfo.h], which is not part of the sources; the record below has
    the fields of section 3 of the specification, and "unknown" is the
    rank-0 record built by the default constructor. *)
Record AxisInfo : Type := mkAxisInfo {
  contiguity : list Z;
  divisibility : list Z;
  constancy : list Z;
  constantValue : option Z
}.

Module Info.

(** Modelled from the spec: the rank of a record is the length of its
    vectors (the constructor stores the size of [contiguity]). *)
Definition getRank (a : AxisInfo) : nat := length (contiguity a).

(** Modelled from the spec: [known()] is declared in [AxisInfo.h]; a
    record is unknown exactly when its rank is the sentinel 0. *)
Definition known (a : AxisInfo) : bool := negb (getRank a =? 0)%nat.

(** Modelled from the spec: [getContiguity(d)] is entry [d] of the
    contiguity vector. Every use in the sources is at an index below the
    rank of a well-formed record; past the end the read is 0. *)
Definition getContiguity (a : AxisInfo) (d : nat) : Z := nth d (contiguity a) 0.

(** Modelled from the spec: [getDivisibility(d)] is entry [d] of the
    divisibility vector (0 past the end). *)
Definition getDivisibility (a : AxisInfo) (d : nat) : Z := nth d (divisibility a) 0.

(** Modelled from the spec: [getConstancy(d)] is entry [d] of the
    constancy vector (0 past the end). *)
Definition getConstancy (a : AxisInfo) (d : nat) : Z := nth d (constancy a) 0.

End Info.

(** Modelled from the spec: [AxisInfo()], the default constructor of
    [AxisInfo.h], builds the unknown record: rank 0, no constant. *)
Definition AxisInfo_default : AxisInfo := mkAxisInfo [] [] [] None.

(** [DimVectorT(rank, v)] *)
Definition DimVectorT (rank : nat) (v : Z) : list Z := repeat v rank.

Definition has_value (o : option Z) : bool :=
  match o with Some _ => true | None => false end.

(** [operator==] on two [std::optional<int64_t>] *)
Definition optional_eqb (x y : option Z) : bool :=
  match x, y with
  | Some u, Some v => u =? v
  | None, None => true
  | _, _ => false
  end.

(** The constructor asserts that the three vectors have the rank as
    their length. *)
Definition well_formed (a : AxisInfo) : Prop :=
  length (divisibility a) = Info.getRank a /\ length (constancy a) = Info.getRank a.

(** The data-model invariant: every entry is at least 1. *)
Definition entries_ge_1 (a : AxisInfo) : Prop :=
  Forall (fun x => 1 <= x) (contiguity a) /\
  Forall (fun x => 1 <= x) (divisibility a) /\
  Forall (fun x => 1 <= x) (constancy a).

Definition entries_nonneg (a : AxisInfo) : Prop :=
  Forall (fun x => 0 <= x) (contiguity a) /\
  Forall (fun x => 0 <= x) (divisibility a) /\
  Forall (fun x => 0 <= x) (constancy a).

(** [AxisInfo::getPessimisticValueState(Value)] *)
Definition getPessimisticValueState (value : Value) : AxisInfo :=
  let rank :=
    match getType value with
    | RankedTensorType shape _ => length shape
    | ScalarType => 1%nat
    end in
  let contiHint := 1 in
  let constHint := 1 in
  let state (divHint : Z) :=
    mkAxisInfo (DimVectorT rank contiHint) (DimVectorT rank divHint)
               (DimVectorT rank constHint) None in
  let hinted (attr : option Z) :=
    match attr with
    | Some v => state (Int32.of_Z v)
    | None => state 1
    end in
  match asBlockArgument value with
  | Some blockArg =>
      if isEntryBlock blockArg then
        match getParentOp blockArg with
        | FuncOp getArgAttr => hinted (getArgAttr (getArgNumber blockArg))
        | LLVMFuncOp getArgAttr => hinted (getArgAttr (getArgNumber blockArg))
        | OtherParentOp => AxisInfo_default
        end
      else state 1
  | None => state 1
  end.

(** The loop [for (d = 0; d < rank; ++d) v.push_back(f d)] *)
Definition for_each_dim (rank : nat) (f : nat -> Z) : list Z :=
  map f (seq 0 rank).

(** [AxisInfo::join]. When both records are known the loop runs over the
    rank of [lhs] and indexes the vectors of [rhs] with the same [d]:
    with a shorter [rhs] the source indexes out of range, where the
    accessors here read 0; [gcd] is the total function above, which
    agrees with the source off the two pairs of [gcd_undefined]. *)
Definition join (lhs rhs : AxisInfo) : exec AxisInfo :=
  if negb (Info.known lhs) && Info.known rhs then Done rhs
  else if Info.known lhs && negb (Info.known rhs) then Done lhs
  else if Info.known lhs && Info.known rhs then
    let contiguity :=
      for_each_dim (Info.getRank lhs)
        (fun d => gcd (Info.getContiguity lhs d) (Info.getContiguity rhs d)) in
    let divisibility :=
      for_each_dim (Info.getRank lhs)
        (fun d => gcd (Info.getDivisibility lhs d) (Info.getDivisibility rhs d)) in
    let constancy :=
      for_each_dim (Info.getRank lhs)
        (fun d => gcd (Info.getConstancy lhs d) (Info.getConstancy rhs d)) in
    let constantValue :=
      if has_value (constantValue lhs) && has_value (constantValue rhs)
         && optional_eqb (constantValue lhs) (constantValue rhs)
      then constantValue lhs
      else None in
    Done (mkAxisInfo contiguity divisibility constancy constantValue)
  else Crash Unreachable.

(** * Transfer functions *)

(** [operands[i]->getValue()] *)
Definition operand (operands : list AxisInfo) (i : nat) : exec AxisInfo :=
  match nth_error operands i with
  | Some info => Done info
  | None => Crash MissingOperand
  end.

(** [highestPowOf2Divisor] is declared in [Utility.h], outside the
    sources; the analysis is parametric in it. *)
Class Utility : Type := highestPowOf2Divisor : Z -> Z.

Module AxisInfoVisitor.

(** Modelled from the spec: the static helper [isContiguousDim] is
    declared in [AxisInfo.h], outside the sources. An operand is "fully
    contiguous" along an axis when its contiguity there is the extent of
    the axis. *)
Definition isContiguousDim (info : AxisInfo) (shape : list Z) (dim : nat) : bool :=
  Info.getContiguity info dim =? nth dim shape 0.

(** Modelled from the spec: the static helper [isConstantDim] is declared
    in [AxisInfo.h], outside the sources. An operand is "fully constant"
    along an axis when its constancy there is the extent of the axis. *)
Definition isConstantDim (info : AxisInfo) (shape : list Z) (dim : nat) : bool :=
  Info.getConstancy info dim =? nth dim shape 0.

End AxisInfoVisitor.

(** The overridable per-axis hooks of [BinaryOpVisitorImpl]. *)
Class BinaryOpVisitor : Type := mkBinaryOpVisitor {
  hookContiguity : Operation -> AxisInfo -> AxisInfo -> nat -> exec Z;
  hookDivisibility : Operation -> AxisInfo -> AxisInfo -> nat -> exec Z;
  hookConstancy : Operation -> AxisInfo -> AxisInfo -> nat -> exec Z;
  hookConstantValue : Operation -> AxisInfo -> AxisInfo -> exec (option Z)
}.

Module BinaryOpVisitorImpl.

(** Modelled from the spec: the base class is declared in [AxisInfo.h],
    outside the sources. A hook that is not overridden yields "no
    information": contiguity 1. *)
Definition getContiguity (op : Operation) (lhs rhs : AxisInfo) (dim : nat) : Z := 1.

(** Modelled from the spec: the default of the base class, divisibility
    1 ("no information"). *)
Definition getDivisibility (op : Operation) (lhs rhs : AxisInfo) (dim : nat) : Z := 1.

(** Modelled from the spec: the default of the base class, constancy 1
    ("no information"). *)
Definition getConstancy (op : Operation) (lhs rhs : AxisInfo) (dim : nat) : Z := 1.

(** Modelled from the spec: the default of the base class, no constant
    value. *)
Definition getConstantValue (op : Operation) (lhs rhs : AxisInfo) : option Z := None.

(** Modelled from the spec: [BinaryOpVisitorImpl::getAxisInfo] is
    declared in [AxisInfo.h], outside the sources. The transfer function
    of a binary operation is "pure, per-axis": the result has the rank
    of the lhs, its three vectors are the three per-axis rules at every
    axis, and its constant value is the constant-value rule. *)
Definition getAxisInfo `{BinaryOpVisitor} (op : Operation)
    (operands : list AxisInfo) : exec AxisInfo :=
  lhsInfo <-! operand operands 0;
  rhsInfo <-! operand operands 1;
  let rank := Info.getRank lhsInfo in
  constantValue <-! hookConstantValue op lhsInfo rhsInfo;
  contiguity <-! exec_mapM (hookContiguity op lhsInfo rhsInfo) (seq 0 rank);
  divisibility <-! exec_mapM (hookDivisibility op lhsInfo rhsInfo) (seq 0 rank);
  constancy <-! exec_mapM (hookConstancy op lhsInfo rhsInfo) (seq 0 rank);
  Done (mkAxisInfo contiguity divisibility constancy constantValue).

End BinaryOpVisitorImpl.

Module CastOpAxisInfoVisitor.

Definition getAxisInfo (op : Operation) (operands : list AxisInfo) : exec AxisInfo :=
  operand operands 0.

End CastOpAxisInfoVisitor.

Module MakeRangeOpAxisInfoVisitor.

(** [op.start()] and [op.end()] are read as integers; their difference
    is the exact one. *)
Definition getAxisInfo {U : Utility} (start end_ : Z) (operands : list AxisInfo) : exec AxisInfo :=
  Done (mkAxisInfo [end_ - start] [highestPowOf2Divisor start] [1] None).

End MakeRangeOpAxisInfoVisitor.

Module ConstantOpAxisInfoVisitor.

Definition getAxisInfo {U : Utility} (attr : ConstantAttr) (operands : list AxisInfo) : exec AxisInfo :=
  match attr with
  | IntegerAttr v =>
      let value := Int64.wrap v in
      Done (mkAxisInfo [1] [highestPowOf2Divisor value] [1] (Some value))
  | BoolAttr b =>
      let value := if b then 1 else 0 in
      Done (mkAxisInfo [1] [highestPowOf2Divisor value] [1] (Some value))
  | SplatElementsAttr true v shape =>
      let value := Int64.wrap v in
      let rank := length shape in
      Done (mkAxisInfo (DimVectorT rank 1)
                       (DimVectorT rank (highestPowOf2Divisor value))
                       shape (Some value))
  | _ => Done AxisInfo_default
  end.

End ConstantOpAxisInfoVisitor.

Module AddOpAxisInfoVisitor.

Definition getContiguity (op : Operation) (lhs rhs : AxisInfo) (dim : nat) : Z :=
  Z.max (gcd (Info.getConstancy lhs dim) (Info.getContiguity rhs dim))
        (gcd (Info.getContiguity lhs dim) (Info.getConstancy rhs dim)).

Definition getDivisibility (op : Operation) (lhs rhs : AxisInfo) (dim : nat) : Z :=
  gcd (Info.getDivisibility lhs dim) (Info.getDivisibility rhs dim).

Definition getConstancy (op : Operation) (lhs rhs : AxisInfo) (dim : nat) : Z :=
  gcd (Info.getConstancy lhs dim) (Info.getConstancy rhs dim).

Definition getConstantValue (op : Operation) (lhs rhs : AxisInfo) : option Z :=
  match constantValue lhs, constantValue rhs with
  | Some l, Some r => Some (Int64.add l r)
  | _, _ => None
  end.

End AddOpAxisInfoVisitor.

Module SubOpAxisInfoVisitor.

Definition getContiguity (op : Operation) (lhs rhs : AxisInfo) (dim : nat) : Z :=
  Z.max (gcd (Info.getConstancy lhs dim) (Info.getContiguity rhs dim))
        (gcd (Info.getContiguity lhs dim) (Info.getConstancy rhs dim)).

Definition getDivisibility (op : Operation) (lhs rhs : AxisInfo) (dim : nat) : Z :=
  gcd (Info.getDivisibility lhs dim) (Info.getDivisibility rhs dim).

Definition getConstancy (op : Operation) (lhs rhs : AxisInfo) (dim : nat) : Z :=
  gcd (Info.getConstancy lhs dim) (Info.getConstancy rhs dim).

Definition getConstantValue (op : Operation) (lhs rhs : AxisInfo) : option Z :=
  match constantValue lhs, constantValue rhs with
  | Some l, Some r => Some (Int64.sub l r)
  | _, _ => None
  end.

End SubOpAxisInfoVisitor.

Module MulIOpAxisInfoVisitor.

Definition getContiguity (op : Operation) (lhs rhs : AxisInfo) (dim : nat) : Z :=
  (* lhs * 1 = lhs *)
  let lhsContiguity :=
    if has_value (constantValue rhs) && optional_eqb (constantValue rhs) (Some 1)
    then Info.getContiguity lhs dim else 1 in
  (* 1 * rhs = rhs *)
  let rhsContiguity :=
    if has_value (constantValue lhs) && optional_eqb (constantValue lhs) (Some 1)
    then Info.getContiguity rhs dim else 1 in
  Z.max lhsContiguity rhsContiguity.

Definition getConstancy (op : Operation) (lhs rhs : AxisInfo) (dim : nat) : Z :=
  gcd (Info.getConstancy lhs dim) (Info.getConstancy rhs dim).

(** The product is taken in [int64_t]. *)
Definition getDivisibility (op : Operation) (lhs rhs : AxisInfo) (dim : nat) : Z :=
  Int64.mul (Info.getDivisibility lhs dim) (Info.getDivisibility rhs dim).

Definition getConstantValue (op : Operation) (lhs rhs : AxisInfo) : option Z :=
  match constantValue lhs, constantValue rhs with
  | Some l, Some r => Some (Int64.mul l r)
  | _, _ => None
  end.

End MulIOpAxisInfoVisitor.

Module DivOpAxisInfoVisitor.

Definition getContiguity (op : Operation) (lhs rhs : AxisInfo) (dim : nat) : Z :=
  (* lhs / 1 = lhs *)
  if has_value (constantValue rhs) && optional_eqb (constantValue rhs) (Some 1)
  then Info.getContiguity lhs dim
  else 1.

Definition getConstancy (op : Operation) (lhs rhs : AxisInfo) (dim : nat) : Z :=
  match resultType op with
  | ScalarType => BinaryOpVisitorImpl.getConstancy op lhs rhs dim
  | RankedTensorType shape _ =>
      (* Case 1: both lhs and rhs are constants. *)
      let constancy := gcd (Info.getConstancy lhs dim) (Info.getConstancy rhs dim) in
      (* Case 2: lhs contiguous, rhs constant. *)
      if AxisInfoVisitor.isContiguousDim lhs shape dim
         && AxisInfoVisitor.isConstantDim rhs shape dim
      then Z.max constancy
             (gcd (Info.getContiguity lhs dim)
                  (gcd (Info.getDivisibility lhs dim) (Info.getDivisibility rhs dim)))
      else constancy
  end.

Definition getDivisibility (op : Operation) (lhs rhs : AxisInfo) (dim : nat) : exec Z :=
  let lhsDivisibility := Info.getDivisibility lhs dim in
  let rhsDivisibility := Info.getDivisibility rhs dim in
  let initGcd := gcd lhsDivisibility rhsDivisibility in
  l <-! Int64Div.sdiv lhsDivisibility initGcd;
  r <-! Int64Div.sdiv rhsDivisibility initGcd;
  Done (gcd l r).

Definition getConstantValue (op : Operation) (lhs rhs : AxisInfo) : exec (option Z) :=
  match constantValue lhs, constantValue rhs with
  | Some l, Some r => q <-! Int64Div.sdiv l r; Done (Some q)
  | _, _ => Done None
  end.

End DivOpAxisInfoVisitor.

Module RemOpAxisInfoVisitor.

Definition getContiguity (op : Operation) (lhs rhs : AxisInfo) (dim : nat) : Z :=
  match resultType op with
  | ScalarType => BinaryOpVisitorImpl.getContiguity op lhs rhs dim
  | RankedTensorType shape _ =>
      let contiguity := 1 in
      (* lhs contiguous, rhs constant *)
      if AxisInfoVisitor.isContiguousDim lhs shape dim
         && AxisInfoVisitor.isConstantDim rhs shape dim
      then Z.max contiguity
             (gcd (Info.getContiguity lhs dim)
                  (gcd (Info.getDivisibility lhs dim) (Info.getDivisibility rhs dim)))
      else contiguity
  end.

Definition getDivisibility (op : Operation) (lhs rhs : AxisInfo) (dim : nat) : Z :=
  gcd (Info.getDivisibility lhs dim) (Info.getDivisibility rhs dim).

Definition getConstancy (op : Operation) (lhs rhs : AxisInfo) (dim : nat) : Z :=
  gcd (Info.getConstancy lhs dim) (Info.getConstancy rhs dim).

Definition getConstantValue (op : Operation) (lhs rhs : AxisInfo) : exec (option Z) :=
  match constantValue lhs, constantValue rhs with
  | Some l, Some r => q <-! Int64Div.srem l r; Done (Some q)
  | _, _ => Done None
  end.

End RemOpAxisInfoVisitor.

Module SplatOpAxisInfoVisitor.

Definition getAxisInfo (op : Operation) (operands : list AxisInfo) : exec AxisInfo :=
  match resultType op with
  | ScalarType => Crash BadCast
  | RankedTensorType retShape _ =>
      opInfo <-! operand operands 0;
      let rank := length retShape in
      Done (mkAxisInfo
              (for_each_dim rank (fun d => 1))
              (for_each_dim rank (fun d => Info.getDivisibility opInfo 0))
              (for_each_dim rank (fun d => nth d retShape 0))
              (constantValue opInfo))
  end.

End SplatOpAxisInfoVisitor.

Module ExpandDimsOpAxisInfoVisitor.

(** [v.insert(v.begin() + axis, 1)] *)
Definition insert_at (axis : nat) (v : list Z) : list Z :=
  firstn axis v ++ 1 :: skipn axis v.

Definition getAxisInfo (axis : nat) (operands : list AxisInfo) : exec AxisInfo :=
  opInfo <-! operand operands 0;
  Done (mkAxisInfo (insert_at axis (contiguity opInfo))
                   (insert_at axis (divisibility opInfo))
                   (insert_at axis (constancy opInfo))
                   (constantValue opInfo)).

End ExpandDimsOpAxisInfoVisitor.

Module BroadcastOpAxisInfoVisitor.

Definition getAxisInfo (op : Operation) (operands : list AxisInfo) : exec AxisInfo :=
  match resultType op, operandType op with
  | RankedTensorType retShape _, RankedTensorType opShape _ =>
      opInfo <-! operand operands 0;
      let rank := length retShape in
      Done (mkAxisInfo
              (for_each_dim rank (fun d =>
                 if nth d opShape 0 =? 1 then 1 else Info.getContiguity opInfo d))
              (for_each_dim rank (fun d => Info.getDivisibility opInfo d))
              (for_each_dim rank (fun d =>
                 if nth d opShape 0 =? 1 then nth d retShape 0
                 else Info.getConstancy opInfo d))
              (constantValue opInfo))
  | _, _ => Crash BadCast
  end.

End BroadcastOpAxisInfoVisitor.

Module CmpOpAxisInfoVisitor.

Definition notGePredicate (predicate : CmpIPredicate.t) : bool :=
  match predicate with
  | CmpIPredicate.sge | CmpIPredicate.uge => false
  | _ => true
  end.

Definition notSePredicate (predicate : CmpIPredicate.t) : bool :=
  match predicate with
  | CmpIPredicate.sle | CmpIPredicate.ule => false
  | _ => true
  end.

Definition compare (predicate : CmpIPredicate.t) (lhs rhs : Z) : bool :=
  match predicate with
  | CmpIPredicate.eq => lhs =? rhs
  | CmpIPredicate.ne => negb (lhs =? rhs)
  | CmpIPredicate.slt => lhs <? rhs
  | CmpIPredicate.sle => lhs <=? rhs
  | CmpIPredicate.sgt => lhs >? rhs
  | CmpIPredicate.sge => lhs >=? rhs
  | CmpIPredicate.ult => Int64.to_unsigned lhs <? Int64.to_unsigned rhs
  | CmpIPredicate.ule => Int64.to_unsigned lhs <=? Int64.to_unsigned rhs
  | CmpIPredicate.ugt => Int64.to_unsigned lhs >? Int64.to_unsigned rhs
  | CmpIPredicate.uge => Int64.to_unsigned lhs >=? Int64.to_unsigned rhs
  end.

(** The value pushed onto [constancy] by one round of the loop. *)
Definition constHint (predicate : CmpIPredicate.t) (shape : list Z)
    (lhsInfo rhsInfo : AxisInfo) (d : nat) : Z :=
  if has_value (constantValue lhsInfo) && has_value (constantValue rhsInfo)
  then Info.getConstancy lhsInfo d
  else
    (* Case 1: lhs and rhs are both partial constants *)
    let constHint := gcd (Info.getConstancy lhsInfo d) (Info.getConstancy rhsInfo d) in
    if (* Case 2: lhs all contiguous, rhs all constants *)
       (notGePredicate predicate
        && (AxisInfoVisitor.isContiguousDim lhsInfo shape d
            && AxisInfoVisitor.isConstantDim rhsInfo shape d))
       || (* Case 3: lhs all constants, rhs all contiguous *)
       (notSePredicate predicate
        && (AxisInfoVisitor.isConstantDim lhsInfo shape d
            && AxisInfoVisitor.isContiguousDim rhsInfo shape d))
    then Z.max constHint
           (gcd (Info.getContiguity lhsInfo d)
                (gcd (Info.getDivisibility lhsInfo d) (Info.getDivisibility rhsInfo d)))
    else constHint.

(** [constantValue] after the loop: assigned in every round when both
    operands carry a constant, so left empty by a loop of no round. *)
Definition loopConstantValue (predicate : CmpIPredicate.t) (rank : nat)
    (lhsInfo rhsInfo : AxisInfo) : option Z :=
  match rank, constantValue lhsInfo, constantValue rhsInfo with
  | S _, Some l, Some r => Some (if compare predicate l r then 1 else 0)
  | _, _, _ => None
  end.

Definition getAxisInfo (predicate : CmpIPredicate.t) (op : Operation)
    (operands : list AxisInfo) : exec AxisInfo :=
  match resultType op with
  | ScalarType => Done AxisInfo_default
  | RankedTensorType shape _ =>
      let rank := length shape in
      lhsInfo <-! operand operands 0;
      rhsInfo <-! operand operands 1;
      Done (mkAxisInfo
              (for_each_dim rank (fun d => 1))
              (for_each_dim rank (fun d => 1))
              (for_each_dim rank (constHint predicate shape lhsInfo rhsInfo))
              (loopConstantValue predicate rank lhsInfo rhsInfo))
  end.

End CmpOpAxisInfoVisitor.

Module SelectOpAxisInfoVisitor.

Definition getAxisInfo (op : Operation) (operands : list AxisInfo) : exec AxisInfo :=
  match resultType op with
  | ScalarType => Done AxisInfo_default
  | RankedTensorType shape _ =>
      let rank := length shape in
      condInfo <-! operand operands 0;
      let condConstancy := constancy condInfo in
      lhsInfo <-! operand operands 1;
      rhsInfo <-! operand operands 2;
      match constantValue condInfo with
      | Some c =>
          if c =? 0 then
            Done (mkAxisInfo (contiguity rhsInfo) (divisibility rhsInfo)
                             (constancy rhsInfo) (constantValue rhsInfo))
          else
            Done (mkAxisInfo (contiguity lhsInfo) (divisibility lhsInfo)
                             (constancy lhsInfo) (constantValue lhsInfo))
      | None =>
          let constancy :=
            for_each_dim rank (fun d =>
              Z.min (gcd (Info.getConstancy lhsInfo d) (nth d condConstancy 0))
                    (gcd (Info.getConstancy rhsInfo d) (nth d condConstancy 0))) in
          let divisibility :=
            for_each_dim rank (fun d =>
              Z.min (Info.getDivisibility lhsInfo d) (Info.getDivisibility rhsInfo d)) in
          let contiguity :=
            for_each_dim rank (fun d =>
              Z.min (gcd (Info.getContiguity lhsInfo d) (nth d condConstancy 0))
                    (gcd (Info.getContiguity rhsInfo d) (nth d condConstancy 0))) in
          let constantValue :=
            if has_value (constantValue lhsInfo) && has_value (constantValue rhsInfo)
               && optional_eqb (constantValue lhsInfo) (constantValue rhsInfo)
            then constantValue lhsInfo
            else None in
          Done (mkAxisInfo contiguity divisibility constancy constantValue)
      end
  end.

End SelectOpAxisInfoVisitor.

Module AndIOpAxisInfoVisitor.

Definition getConstancy (op : Operation) (lhs rhs : AxisInfo) (dim : nat) : Z :=
  gcd (Info.getConstancy lhs dim) (Info.getConstancy rhs dim).

Definition getConstantValue (op : Operation) (lhs rhs : AxisInfo) : option Z :=
  match constantValue lhs, constantValue rhs with
  | Some l, Some r => Some (Z.land l r)
  | _, _ => None
  end.

End AndIOpAxisInfoVisitor.

Module OrIOpAxisInfoVisitor.

Definition getConstancy (op : Operation) (lhs rhs : AxisInfo) (dim : nat) : Z :=
  gcd (Info.getConstancy lhs dim) (Info.getConstancy rhs dim).

Definition getConstantValue (op : Operation) (lhs rhs : AxisInfo) : option Z :=
  match constantValue lhs, constantValue rhs with
  | Some l, Some r => Some (Z.lor l r)
  | _, _ => None
  end.

End OrIOpAxisInfoVisitor.

Module XorIOpAxisInfoVisitor.

Definition getConstancy (op : Operation) (lhs rhs : AxisInfo) (dim : nat) : Z :=
  gcd (Info.getConstancy lhs dim) (Info.getConstancy rhs dim).

Definition getConstantValue (op : Operation) (lhs rhs : AxisInfo) : option Z :=
  match constantValue lhs, constantValue rhs with
  | Some l, Some r => Some (Z.lxor l r)
  | _, _ => None
  end.

End XorIOpAxisInfoVisitor.

(** * The visitor list

    The visitors registered by the constructor of [AxisInfoAnalysis],
    as instances of the binary-operation interface where they override
    its hooks. *)

Definition AddOpVisitor : BinaryOpVisitor :=
  {| hookContiguity op l r d := Done (AddOpAxisInfoVisitor.getContiguity op l r d);
     hookDivisibility op l r d := Done (AddOpAxisInfoVisitor.getDivisibility op l r d);
     hookConstancy op l r d := Done (AddOpAxisInfoVisitor.getConstancy op l r d);
     hookConstantValue op l r := Done (AddOpAxisInfoVisitor.getConstantValue op l r) |}.

Definition SubOpVisitor : BinaryOpVisitor :=
  {| hookContiguity op l r d := Done (SubOpAxisInfoVisitor.getContiguity op l r d);
     hookDivisibility op l r d := Done (SubOpAxisInfoVisitor.getDivisibility op l r d);
     hookConstancy op l r d := Done (SubOpAxisInfoVisitor.getConstancy op l r d);
     hookConstantValue op l r := Done (SubOpAxisInfoVisitor.getConstantValue op l r) |}.

Definition MulIOpVisitor : BinaryOpVisitor :=
  {| hookContiguity op l r d := Done (MulIOpAxisInfoVisitor.getContiguity op l r d);
     hookDivisibility op l r d := Done (MulIOpAxisInfoVisitor.getDivisibility op l r d);
     hookConstancy op l r d := Done (MulIOpAxisInfoVisitor.getConstancy op l r d);
     hookConstantValue op l r := Done (MulIOpAxisInfoVisitor.getConstantValue op l r) |}.

Definition DivOpVisitor : BinaryOpVisitor :=
  {| hookContiguity op l r d := Done (DivOpAxisInfoVisitor.getContiguity op l r d);
     hookDivisibility := DivOpAxisInfoVisitor.getDivisibility;
     hookConstancy op l r d := Done (DivOpAxisInfoVisitor.getConstancy op l r d);
     hookConstantValue := DivOpAxisInfoVisitor.getConstantValue |}.

Definition RemOpVisitor : BinaryOpVisitor :=
  {| hookContiguity op l r d := Done (RemOpAxisInfoVisitor.getContiguity op l r d);
     hookDivisibility op l r d := Done (RemOpAxisInfoVisitor.getDivisibility op l r d);
     hookConstancy op l r d := Done (RemOpAxisInfoVisitor.getConstancy op l r d);
     hookConstantValue := RemOpAxisInfoVisitor.getConstantValue |}.

Definition AndIOpVisitor : BinaryOpVisitor :=
  {| hookContiguity op l r d := Done (BinaryOpVisitorImpl.getContiguity op l r d);
     hookDivisibility op l r d := Done (BinaryOpVisitorImpl.getDivisibility op l r d);
     hookConstancy op l r d := Done (AndIOpAxisInfoVisitor.getConstancy op l r d);
     hookConstantValue op l r := Done (AndIOpAxisInfoVisitor.getConstantValue op l r) |}.

Definition OrIOpVisitor : BinaryOpVisitor :=
  {| hookContiguity op l r d := Done (BinaryOpVisitorImpl.getContiguity op l r d);
     hookDivisibility op l r d := Done (BinaryOpVisitorImpl.getDivisibility op l r d);
     hookConstancy op l r d := Done (OrIOpAxisInfoVisitor.getConstancy op l r d);
     hookConstantValue op l r := Done (OrIOpAxisInfoVisitor.getConstantValue op l r) |}.

Definition XorIOpVisitor : BinaryOpVisitor :=
  {| hookContiguity op l r d := Done (BinaryOpVisitorImpl.getContiguity op l r d);
     hookDivisibility op l r d := Done (BinaryOpVisitorImpl.getDivisibility op l r d);
     hookConstancy op l r d := Done (XorIOpAxisInfoVisitor.getConstancy op l r d);
     hookConstantValue op l r := Done (XorIOpAxisInfoVisitor.getConstantValue op l r) |}.

Module AxisInfoVisitorList.

(** Modelled from the spec: the visitor list class is declared in
    [AxisInfo.h], outside the sources. [apply] runs the one visitor
    registered for the kind of the operation; a kind without a visitor
    yields the unknown record. *)
Definition apply {U : Utility} (op : Operation) (operands : list AxisInfo) : exec AxisInfo :=
  match opKind op with
  | ExtSIOp | ExtUIOp | TruncIOp | IndexCastOp | PtrToIntOp | IntToPtrOp
  | ConvertLayoutOp | UnrealizedConversionCastOp | BitcastOp =>
      CastOpAxisInfoVisitor.getAxisInfo op operands
  | MakeRangeOp start end_ =>
      MakeRangeOpAxisInfoVisitor.getAxisInfo start end_ operands
  | ConstantOp value => ConstantOpAxisInfoVisitor.getAxisInfo value operands
  | AddPtrOp | AddIOp =>
      @BinaryOpVisitorImpl.getAxisInfo AddOpVisitor op operands
  | SubIOp => @BinaryOpVisitorImpl.getAxisInfo SubOpVisitor op operands
  | MulIOp => @BinaryOpVisitorImpl.getAxisInfo MulIOpVisitor op operands
  | DivSIOp | DivUIOp =>
      @BinaryOpVisitorImpl.getAxisInfo DivOpVisitor op operands
  | RemSIOp | RemUIOp =>
      @BinaryOpVisitorImpl.getAxisInfo RemOpVisitor op operands
  | BroadcastOp => BroadcastOpAxisInfoVisitor.getAxisInfo op operands
  | SplatOp => SplatOpAxisInfoVisitor.getAxisInfo op operands
  | ExpandDimsOp axis => ExpandDimsOpAxisInfoVisitor.getAxisInfo axis operands
  | CmpIOp predicate | TritonGPUCmpIOp predicate =>
      CmpOpAxisInfoVisitor.getAxisInfo predicate op operands
  | AndIOp => @BinaryOpVisitorImpl.getAxisInfo AndIOpVisitor op operands
  | OrIOp => @BinaryOpVisitorImpl.getAxisInfo OrIOpVisitor op operands
  | XOrIOp => @BinaryOpVisitorImpl.getAxisInfo XorIOpVisitor op operands
  | SelectOp | TritonGPUSelectOp =>
      SelectOpAxisInfoVisitor.getAxisInfo op operands
  | UnregisteredOp => Done AxisInfo_default
  end.

End AxisInfoVisitorList.

(** * The lattice store *)

Inductive ChangeResult : Set := NoChange | Change.

(** [operator|] on [ChangeResult] *)
Definition ChangeResult_or (x y : ChangeResult) : ChangeResult :=
  match x, y with
  | NoChange, NoChange => NoChange
  | _, _ => Change
  end.

#[global] Instance AxisInfo_eq_dec : EqDecision AxisInfo.
Proof. solve_decision. Defined.

(** Modelled from the spec: the lattice slot of a value belongs to the
    dataflow framework, outside the sources. A slot holds the current
    record of its value and whether it has been marked permanently
    fixed. *)
Record LatticeElement : Type := mkLatticeElement {
  getValue : AxisInfo;
  isAtFixpoint : bool
}.

Module Lattice.

(** Modelled from the spec: the [join] of a slot belongs to the dataflow
    framework, outside the sources. A slot is updated only through
    [AxisInfo::join]; a permanently fixed slot is never changed. The
    result tells whether the slot changed. *)
Definition join (e : LatticeElement) (rhs : AxisInfo) : exec (ChangeResult * LatticeElement) :=
  if isAtFixpoint e then Done (NoChange, e)
  else
    newValue <-! join (getValue e) rhs;
    if decide (newValue = getValue e) then Done (NoChange, e)
    else Done (Change, mkLatticeElement newValue false).

(** Modelled from the spec: marking a slot stores the pessimistic
    default of its value and fixes it permanently. *)
Definition markPessimisticFixpoint (value : Value) (e : LatticeElement)
    : ChangeResult * LatticeElement :=
  let fixed := mkLatticeElement (getPessimisticValueState value) true in
  if isAtFixpoint e && bool_decide (getValue e = getPessimisticValueState value)
  then (NoChange, fixed)
  else (Change, fixed).

End Lattice.

(** The lattice store: a mapping from value identifier to slot. *)
Abbreviation Store := (gmap positive LatticeElement).

(** Modelled from the spec: [getLatticeElement] belongs to the dataflow
    framework, outside the sources. It is the slot of the value; a value
    without slot so far "starts with a pessimistic default". *)
Definition getLatticeElement (store : Store) (value : Value) : LatticeElement :=
  match store !! valueId value with
  | Some e => e
  | None => mkLatticeElement (getPessimisticValueState value) false
  end.

(** Modelled from the spec: [lookupLatticeElement] belongs to the
    dataflow framework, outside the sources. It is the slot of the value
    in the converged store, a null pointer when there is none. *)
Definition lookupLatticeElement (store : Store) (value : Value) : exec LatticeElement :=
  match store !! valueId value with
  | Some e => Done e
  | None => Crash NullLattice
  end.

(** Modelled from the spec: [markAllPessimisticFixpoint] belongs to the
    dataflow framework, outside the sources. Every given value is
    assigned its pessimistic default and marked permanently fixed. *)
Fixpoint markAllPessimisticFixpoint (values : list Value) (store : Store)
    : ChangeResult * Store :=
  match values with
  | [] => (NoChange, store)
  | value :: rest =>
      let '(c, e) :=
        Lattice.markPessimisticFixpoint value (getLatticeElement store value) in
      let '(c', store') :=
        markAllPessimisticFixpoint rest (<[valueId value := e]> store) in
      (ChangeResult_or c c', store')
  end.

(** The slot stored for a value by [markAllPessimisticFixpoint]. *)
Definition fixedSlot (r : Value) : LatticeElement :=
  mkLatticeElement (getPessimisticValueState r) true.

(** * AxisInfoAnalysis *)

(** The loop of [visitOperation] joining [curr] into every result. *)
Fixpoint joinResults (curr : AxisInfo) (values : list Value)
    (result : ChangeResult) (store : Store) : exec (ChangeResult * Store) :=
  match values with
  | [] => Done (result, store)
  | value :: rest =>
      r <-! Lattice.join (getLatticeElement store value) curr;
      joinResults curr rest (ChangeResult_or result (fst r))
                  (<[valueId value := snd r]> store)
  end.

(** [AxisInfoAnalysis::visitOperation] *)
Definition visitOperation {U : Utility} (op : Operation) (operands : list AxisInfo)
    (store : Store) : exec (ChangeResult * Store) :=
  curr <-! AxisInfoVisitorList.apply op operands;
  if (Info.getRank curr =? 0)%nat then
    Done (markAllPessimisticFixpoint (getResults op) store)
  else
    (* join all lattice elements *)
    joinResults curr (getResults op) NoChange store.

(** [order[0]] *)
Definition fastestAxis (layout : Encoding) : nat := nth 0 (getOrder layout) 0%nat.

(** [AxisInfoAnalysis::getPtrAlignment] *)
Definition getPtrAlignment (store : Store) (ptr : Value) : exec Z :=
  match getType ptr with
  | ScalarType => Done 1
  | RankedTensorType shape layout =>
      e <-! lookupLatticeElement store ptr;
      let axisInfo := getValue e in
      let maxMultiple := Info.getDivisibility axisInfo (fastestAxis layout) in
      let maxContig := Info.getContiguity axisInfo (fastestAxis layout) in
      let alignment := UInt32.of_Z (Z.min maxMultiple maxContig) in
      Done alignment
  end.

(** [AxisInfoAnalysis::getPtrVectorSize] *)
Definition getPtrVectorSize (store : Store) (ptr : Value) : exec Z :=
  match getType ptr with
  | ScalarType => Done 1
  | RankedTensorType shape layout =>
      align <-! getPtrAlignment store ptr;
      let contigPerThread :=
        UInt32.of_Z (nth (fastestAxis layout) (getSizePerThread layout) 0) in
      let vec := Z.min align contigPerThread in
      let vec := Z.min (UInt32.of_Z (nth (fastestAxis layout) shape 0)) vec in
      Done vec
  end.

(** [AxisInfoAnalysis::getMaskAlignment] *)
Definition getMaskAlignment (store : Store) (mask : Value) : exec Z :=
  match getType mask with
  | ScalarType => Done 1
  | RankedTensorType shape layout =>
      e <-! lookupLatticeElement store mask;
      let maskAxis := getValue e in
      let alignment :=
        Z.max (UInt32.of_Z (Info.getConstancy maskAxis (fastestAxis layout))) 1 in
      Done alignment
  end.

(** * Runs of the analysis

    The driver of the dataflow framework, outside the sources, invokes
    the entry point on operations and joins records into slots, in an
    order of its own. A run is any sequence of such events. *)

Inductive Event : Type :=
| Visit (op : Operation) (operands : list AxisInfo)
| Join (value : Value) (rhs : AxisInfo).

(** The values whose slots an event may write. *)
Definition eventValues (ev : Event) : list Value :=
  match ev with
  | Visit op _ => getResults op
  | Join value _ => [value]
  end.

Definition step {U : Utility} (ev : Event) (store : Store) : exec Store :=
  match ev with
  | Visit op operands =>
      r <-! visitOperation op operands store; Done (snd r)
  | Join value rhs =>
      r <-! Lattice.join (getLatticeElement store value) rhs;
      Done (<[valueId value := snd r]> store)
  end.

Inductive reaches {U : Utility} : Store -> list Event -> Store -> Prop :=
| reaches_nil store : reaches store [] store
| reaches_cons store ev store' evs store'' :
    step ev store = Done store' ->
    reaches store' evs store'' ->
    reaches store (ev :: evs) store''.

(** A value identifier names one value of the instruction graph. *)
Definition namesOnly (r : Value) (ev : Event) : Prop :=
  forall v, In v (eventValues ev) -> valueId v = valueId r -> v = r.

Definition isCmpOrSelect (kind : OpKind) : bool :=
  match kind with
  | CmpIOp _ | TritonGPUCmpIOp _ | SelectOp | TritonGPUSelectOp => true
  | _ => false
  end.

(** * The statements of the specification that the sources refine

    Each definition below follows the wording of the specification; it is
    compared with the transfer function it describes. *)

Module Claimed.


(** "constancy equals gcd(constL, constR), raised to gcd(contiguity of
    the contiguous operand, gcd(divL, divR)) in exactly two situations:
    lhs fully contiguous and rhs fully constant with a predicate not in
    the >= family, or rhs fully contiguous and lhs fully constant with
    a predicate not in the <= family" *)
Definition cmpConstancy (predicate : CmpIPredicate.t) (shape : list Z)
    (lhs rhs : AxisInfo) (d : nat) : Z :=
  let base := gcd (Info.getConstancy lhs d) (Info.getConstancy rhs d) in
  let divs := gcd (Info.getDivisibility lhs d) (Info.getDivisibility rhs d) in
  if CmpOpAxisInfoVisitor.notGePredicate predicate
     && (AxisInfoVisitor.isContiguousDim lhs shape d
         && AxisInfoVisitor.isConstantDim rhs shape d)
  then Z.max base (gcd (Info.getContiguity lhs d) divs)
  else if CmpOpAxisInfoVisitor.notSePredicate predicate
          && (AxisInfoVisitor.isConstantDim lhs shape d
              && AxisInfoVisitor.isContiguousDim rhs shape d)
  then Z.max base (gcd (Info.getContiguity rhs d) divs)
  else base.

End Claimed.

(** * Concrete inputs *)

Definition sample_lhs : AxisInfo := mkAxisInfo [4; 1] [8; 16] [1; 32] (Some 7).
Definition sample_rhs : AxisInfo := mkAxisInfo [1; 6] [4; 12] [1; 8] None.
Definition sample_third : AxisInfo := mkAxisInfo [2; 9] [6; 8] [3; 4] (Some 7).

(** The worked example of the specification: operand A has contiguity 4,
    divisibility 8, constancy 1; operand B has contiguity 1,
    divisibility 4, constancy 1. *)
Definition example_A : AxisInfo := mkAxisInfo [4] [8] [1] None.
Definition example_B : AxisInfo := mkAxisInfo [1] [4] [1] None.
Definition example_add : Operation :=
  mkOperation AddIOp [mkValue 1 ScalarType None] [ScalarType; ScalarType].

Definition blocked_layout : Encoding := mkEncoding [0%nat] [4].

(** A one-dimensional tensor of 8 elements and operations producing it. *)
Definition tensor8 : MType := RankedTensorType [8] blocked_layout.
Definition tensor4 : MType := RankedTensorType [4] blocked_layout.

Definition example_div : Operation :=
  mkOperation DivSIOp [mkValue 1 tensor8 None] [tensor8; tensor8].

(** lhs: a run of 8 consecutive integers starting at a multiple of 8;
    rhs: one value, a multiple of 8, repeated 8 times. *)
Definition contiguous8 : AxisInfo := mkAxisInfo [8] [8] [1] None.
Definition constant8 : AxisInfo := mkAxisInfo [1] [8] [8] None.

(** One value everywhere: 4, respectively 0. *)
Definition four_everywhere : AxisInfo := mkAxisInfo [1] [4] [8] (Some 4).
Definition zero_everywhere : AxisInfo :=
  mkAxisInfo [1] [4611686018427387904] [8] (Some 0).

Definition example_cmp : Operation :=
  mkOperation (CmpIOp CmpIPredicate.slt) [mkValue 1 tensor4 None] [tensor4; tensor4].

(** lhs: one value, a multiple of 4, repeated 4 times; rhs: a run of 4
    consecutive integers starting at a multiple of 4. *)
Definition constant4 : AxisInfo := mkAxisInfo [1] [4] [4] None.
Definition contiguous4 : AxisInfo := mkAxisInfo [4] [4] [1] None.

(** A pointer tensor of 2^32 elements along its only axis. *)
Definition tensor_2_32 : MType := RankedTensorType [4294967296] blocked_layout.
Definition wide_ptr : Value := mkValue 1 tensor_2_32 None.
Definition wide_store : Store :=
  {[ 1%positive :=
       mkLatticeElement
         (mkAxisInfo [4294967296] [4294967296] [4294967296] None) false ]}.

(** A pointer tensor of 32 elements with divisibility 16 and contiguity 8
    along its fastest axis, and a scalar. *)
Definition tensor32 : MType := RankedTensorType [32] blocked_layout.
Definition ptr32 : Value := mkValue 2 tensor32 None.
Definition scalar_value : Value := mkValue 3 ScalarType None.
Definition ptr32_slot : LatticeElement :=
  mkLatticeElement (mkAxisInfo [8] [16] [1] None) false.
Definition ptr32_store : Store := {[ 2%positive := ptr32_slot ]}.

(** A helper with no information about powers of two. *)
Definition no_power_of_two_info : Utility := fun _ => 1.

(** An operation without transfer function, and a scalar compare. *)
Definition unregistered_op : Operation :=
  mkOperation UnregisteredOp [mkValue 5 tensor8 None] [tensor8].
Definition scalar_cmp : Operation :=
  mkOperation (CmpIOp CmpIPredicate.slt) [scalar_value] [ScalarType; ScalarType].

(** A scalar function argument declared divisible by 2^30, its record,
    and the record of a product of two such values. *)
Definition hinted_argument : Value :=
  mkValue 7 ScalarType
    (Some (mkBlockArgument 0 true (FuncOp (fun _ => Some 1073741824)))).
Definition divisible_2_30 : AxisInfo := mkAxisInfo [1] [1073741824] [1] None.
Definition divisible_2_60 : AxisInfo :=
  mkAxisInfo [1] [1152921504606846976] [1] None.
Definition scalar_mul : Operation :=
  mkOperation MulIOp [mkValue 8 ScalarType None] [ScalarType; ScalarType].

(** A splat of a scalar onto 8 elements. *)
Definition example_splat : Operation :=
  mkOperation SplatOp [mkValue 9 tensor8 None] [ScalarType].

(** A column of 4 elements broadcast to 4 rows of 8. *)
Definition layout2d : Encoding := mkEncoding [1%nat; 0%nat] [1; 4].
Definition example_broadcast : Operation :=
  mkOperation BroadcastOp
    [mkValue 10 (RankedTensorType [4; 8] layout2d) None]
    [RankedTensorType [4; 1] layout2d].
Definition column_info : AxisInfo := mkAxisInfo [4; 1] [4; 4] [1; 1] None.

(** A compare and a select on tensors of 8 elements. *)
Definition example_cmp8 : Operation :=
  mkOperation (CmpIOp CmpIPredicate.slt) [mkValue 11 tensor8 None] [tensor8; tensor8].
Definition example_select : Operation :=
  mkOperation SelectOp [mkValue 12 tensor8 None] [tensor8; tensor8; tensor8].

(** Every entry is an [int64_t] other than [INT64_MIN]. *)
Definition entries_above_min (a : AxisInfo) : Prop :=
  Forall (fun x => Int64.min_signed < x <= Int64.max_signed) (contiguity a) /\
  Forall (fun x => Int64.min_signed < x <= Int64.max_signed) (divisibility a) /\
  Forall (fun x => Int64.min_signed < x <= Int64.max_signed) (constancy a).


(** * Properties of the machine integers *)

Lemma Int64_wrap_in_range z : Int64.in_range (Int64.wrap z).
Proof.
  unfold Int64.in_range, Int64.wrap, Int64.min_signed, Int64.max_signed,
    Int64.modulus, Int64.half_modulus.
  pose proof (Z.mod_pos_bound (z + 2 ^ 63) (2 ^ 64) ltac:(lia)). lia.
Qed.

Lemma Int64_wrap_small z : Int64.in_range z -> Int64.wrap z = z.
Proof.
  unfold Int64.in_range, Int64.wrap, Int64.min_signed, Int64.max_signed,
    Int64.modulus, Int64.half_modulus.
  intros H. rewrite Z.mod_small by lia. lia.
Qed.

Lemma UInt32_of_Z_small z : 0 <= z < UInt32.modulus -> UInt32.of_Z z = z.
Proof. intros H. unfold UInt32.of_Z. now rewrite Z.mod_small. Qed.

(** ** Termination and the defining equation of [gcd] *)

Lemma gcdImpl_fuel_mono n a b r :
  gcdImpl_fuel n a b = Some r ->
  forall m, (n <= m)%nat -> gcdImpl_fuel m a b = Some r.
Proof.
  revert a b r. induction n as [|n IH]; intros a b r H m Hm; [discriminate|].
  destruct m as [|m]; [lia|]. simpl in *.
  destruct (a =? 0); [assumption|].
  destruct (gcdImpl_fuel n (Z.rem b a) a) as [[[g x1] y1]|] eqn:E;
    [|discriminate].
  rewrite (IH _ _ _ E m) by lia. assumption.
Qed.

Lemma rem_rem_halves a b :
  a <> 0 -> Z.rem b a <> 0 ->
  2 * Z.abs (Z.rem a (Z.rem b a)) < Z.abs a.
Proof.
  intros Ha Hr.
  pose proof (Z.rem_bound_abs b a Ha) as H1.
  rewrite <- Z.rem_abs by assumption.
  set (A := Z.abs a) in *. set (R := Z.abs (Z.rem b a)) in *.
  assert (HR : 0 < R) by (subst R; lia).
  rewrite Z.rem_mod_nonneg by lia.
  pose proof (Z.mod_pos_bound A R HR).
  pose proof (Z.div_mod A R ltac:(lia)).
  assert (1 <= A / R) by (apply Z.div_le_lower_bound; lia).
  nia.
Qed.

Lemma gcdImpl_fuel_enough k a b :
  Z.abs a < 2 ^ Z.of_nat k ->
  exists r, gcdImpl_fuel (S (2 * k)) a b = Some r.
Proof.
  revert a b. induction k as [|k IH]; intros a b Hk.
  - simpl in *. assert (a = 0) by lia. subst. simpl. eauto.
  - replace (S (2 * S k)) with (S (S (S (2 * k)))) by lia.
    specialize (IH (Z.rem a (Z.rem b a)) (Z.rem b a)).
    remember (S (2 * k)) as n eqn:En. cbn [gcdImpl_fuel].
    destruct (Z.eqb_spec a 0) as [->|Ha]; [eauto|].
    destruct (Z.eqb_spec (Z.rem b a) 0) as [Hz|Hr]; [eauto|].
    destruct IH as [[[g x] y] E].
    + pose proof (rem_rem_halves a b Ha Hr).
      rewrite Nat2Z.inj_succ, Z.pow_succ_r in Hk by lia. lia.
    + rewrite E. eauto.
Qed.

Lemma gcd_fuel_enough a b :
  exists r, gcdImpl_fuel (gcd_fuel a) a b = Some r.
Proof.
  apply gcdImpl_fuel_enough.
  rewrite Nat2Z.inj_succ, Z2Nat.id by apply Z.log2_nonneg.
  destruct (Z.eq_dec a 0) as [->|Ha]; [reflexivity|].
  apply Z.log2_spec. lia.
Qed.

(** The embedding satisfies the recursive equation of the source, at
    every pair of arguments. *)
Lemma gcdImpl_unfold a b :
  gcdImpl a b =
    if a =? 0 then (b, 0, 1)
    else
      let '(g, x1, y1) := gcdImpl (Z.rem b a) a in
      (g, Int64.sub y1 (Int64.mul (Z.quot b a) x1), x1).
Proof.
  unfold gcdImpl.
  destruct (gcd_fuel_enough a b) as [r E]. rewrite E.
  destruct (gcd_fuel_enough (Z.rem b a) a) as [r' E'].
  rewrite E'.
  unfold gcd_fuel in E at 1. cbn [gcdImpl_fuel] in E.
  destruct (a =? 0); [congruence|].
  destruct (gcdImpl_fuel _ (Z.rem b a) a) as [[[g x1] y1]|] eqn:E1;
    [|discriminate].
  pose proof (gcdImpl_fuel_mono _ _ _ _ E1
                (Nat.max (2 * S (Z.to_nat (Z.log2 (Z.abs a))))
                         (gcd_fuel (Z.rem b a))) ltac:(lia)) as M1.
  pose proof (gcdImpl_fuel_mono _ _ _ _ E'
                (Nat.max (2 * S (Z.to_nat (Z.log2 (Z.abs a))))
                         (gcd_fuel (Z.rem b a))) ltac:(lia)) as M2.
  rewrite M1 in M2. inversion M2; subst. congruence.
Qed.

Lemma gcd_unfold a b :
  gcd a b = if a =? 0 then b else gcd (Z.rem b a) a.
Proof.
  unfold gcd. rewrite gcdImpl_unfold.
  destruct (a =? 0); [reflexivity|].
  destruct (gcdImpl (Z.rem b a) a) as [[g x1] y1]. reflexivity.
Qed.

Lemma gcd_0_l b : gcd 0 b = b.
Proof. now rewrite gcd_unfold. Qed.


Lemma gcd_diag a : gcd a a = a.
Proof.
  rewrite gcd_unfold. destruct (Z.eqb_spec a 0) as [->|Ha]; [reflexivity|].
  now rewrite Z.rem_same, gcd_0_l by assumption.
Qed.

(** On non-negative arguments [gcd] is the greatest common divisor. *)
Lemma gcd_nonneg_Zgcd a b : 0 <= a -> 0 <= b -> gcd a b = Z.gcd a b.
Proof.
  intros Ha. revert b. pattern a. apply Zlt_0_ind; [|exact Ha].
  clear a Ha. intros a IH Ha b Hb.
  rewrite gcd_unfold. destruct (Z.eqb_spec a 0) as [->|Hne].
  - rewrite Z.gcd_0_l. lia.
  - rewrite Z.rem_mod_nonneg by lia.
    pose proof (Z.mod_pos_bound b a ltac:(lia)).
    rewrite IH by lia.
    rewrite Z.gcd_mod by lia. reflexivity.
Qed.

Lemma gcd_comm_nonneg a b : 0 <= a -> 0 <= b -> gcd a b = gcd b a.
Proof.
  intros Ha Hb. rewrite !gcd_nonneg_Zgcd by assumption. apply Z.gcd_comm.
Qed.

Lemma gcd_pos a b : 1 <= a -> 1 <= b -> 1 <= gcd a b.
Proof.
  intros Ha Hb. rewrite gcd_nonneg_Zgcd by lia.
  pose proof (Z.gcd_nonneg a b).
  destruct (Z.eq_dec (Z.gcd a b) 0) as [E|E]; [|lia].
  apply Z.gcd_eq_0_l in E. lia.
Qed.

Lemma gcd_le_l a b : 1 <= a -> 0 <= b -> gcd a b <= a.
Proof.
  intros Ha Hb. rewrite gcd_nonneg_Zgcd by lia.
  apply Z.divide_pos_le; [lia|apply Z.gcd_divide_l].
Qed.


(** * The vectors built by the per-axis loop *)

Lemma for_each_dim_length rank f : length (for_each_dim rank f) = rank.
Proof. unfold for_each_dim. now rewrite length_map, length_seq. Qed.

Lemma for_each_dim_nth rank f d :
  (d < rank)%nat -> nth d (for_each_dim rank f) 0 = f d.
Proof.
  intros Hd. unfold for_each_dim.
  rewrite (nth_indep _ 0 (f 0%nat)) by now rewrite length_map, length_seq.
  rewrite map_nth, seq_nth by assumption. reflexivity.
Qed.

Lemma for_each_dim_ext rank f g :
  (forall d, (d < rank)%nat -> f d = g d) ->
  for_each_dim rank f = for_each_dim rank g.
Proof.
  intros H. unfold for_each_dim. apply map_ext_in.
  intros d Hd. apply in_seq in Hd. apply H. lia.
Qed.

(** Reading every entry of a vector back rebuilds the vector. *)
Lemma for_each_dim_id (v : list Z) :
  for_each_dim (length v) (fun d => nth d v 0) = v.
Proof.
  apply (nth_ext _ _ 0 0).
  - apply for_each_dim_length.
  - intros n Hn. rewrite for_each_dim_length in Hn.
    now apply for_each_dim_nth.
Qed.

Lemma for_each_dim_Forall (P : Z -> Prop) rank f :
  (forall d, (d < rank)%nat -> P (f d)) -> Forall P (for_each_dim rank f).
Proof.
  intros H. unfold for_each_dim. apply List.Forall_forall.
  intros x Hx. apply in_map_iff in Hx as [d [<- Hd]].
  apply in_seq in Hd. apply H. lia.
Qed.

Lemma nth_nonneg (v : list Z) d :
  Forall (fun x => 0 <= x) v -> 0 <= nth d v 0.
Proof.
  intros H. destruct (Nat.lt_ge_cases d (length v)) as [Hd|Hd].
  - rewrite List.Forall_forall in H. apply H. now apply nth_In.
  - rewrite nth_overflow by assumption. lia.
Qed.

Lemma nth_ge_1 (v : list Z) d :
  Forall (fun x => 1 <= x) v -> (d < length v)%nat -> 1 <= nth d v 0.
Proof.
  intros H Hd. rewrite List.Forall_forall in H. apply H. now apply nth_In.
Qed.

(** * Join *)

Lemma join_known lhs rhs :
  Info.known lhs = true -> Info.known rhs = true ->
  join lhs rhs =
    Done (mkAxisInfo
            (for_each_dim (Info.getRank lhs)
               (fun d => gcd (Info.getContiguity lhs d) (Info.getContiguity rhs d)))
            (for_each_dim (Info.getRank lhs)
               (fun d => gcd (Info.getDivisibility lhs d) (Info.getDivisibility rhs d)))
            (for_each_dim (Info.getRank lhs)
               (fun d => gcd (Info.getConstancy lhs d) (Info.getConstancy rhs d)))
            (if has_value (constantValue lhs) && has_value (constantValue rhs)
                && optional_eqb (constantValue lhs) (constantValue rhs)
             then constantValue lhs else None)).
Proof. intros Hl Hr. unfold join. rewrite Hl, Hr. reflexivity. Qed.










(** * Elementwise add and sub *)

(** C5, as stated, at the worked example: the contiguity of the sum is
    claimed to be 4; the transfer function returns
    [max (gcd 1 1) (gcd 4 1) = 1]. *)
Lemma add_example_contiguity_is_not_4 :
  AddOpAxisInfoVisitor.getContiguity example_add example_A example_B 0 <> 4.
Proof. vm_compute. discriminate. Qed.

(** C5: for add and for sub, along every axis [d] the contiguity is
    [max (gcd constL contR) (gcd contL constR)], the divisibility is
    [gcd divL divR], the constancy is [gcd constL constR]; the constant
    value is present exactly when both operands have one, and is then
    their [int64_t] sum (difference). Operands (4, 8, 1) and (1, 4, 1)
    give contiguity 1, divisibility 4, constancy 1. *)
Theorem add_sub_transfer (op : Operation) (lhs rhs : AxisInfo) (d : nat) :
  (AddOpAxisInfoVisitor.getContiguity op lhs rhs d =
     Z.max (gcd (nth d (constancy lhs) 0) (nth d (contiguity rhs) 0))
           (gcd (nth d (contiguity lhs) 0) (nth d (constancy rhs) 0)) /\
   AddOpAxisInfoVisitor.getDivisibility op lhs rhs d =
     gcd (nth d (divisibility lhs) 0) (nth d (divisibility rhs) 0) /\
   AddOpAxisInfoVisitor.getConstancy op lhs rhs d =
     gcd (nth d (constancy lhs) 0) (nth d (constancy rhs) 0) /\
   (forall v, AddOpAxisInfoVisitor.getConstantValue op lhs rhs = Some v <->
      exists l r, constantValue lhs = Some l /\ constantValue rhs = Some r /\
                  v = Int64.add l r)) /\
  (SubOpAxisInfoVisitor.getContiguity op lhs rhs d =
     Z.max (gcd (nth d (constancy lhs) 0) (nth d (contiguity rhs) 0))
           (gcd (nth d (contiguity lhs) 0) (nth d (constancy rhs) 0)) /\
   SubOpAxisInfoVisitor.getDivisibility op lhs rhs d =
     gcd (nth d (divisibility lhs) 0) (nth d (divisibility rhs) 0) /\
   SubOpAxisInfoVisitor.getConstancy op lhs rhs d =
     gcd (nth d (constancy lhs) 0) (nth d (constancy rhs) 0) /\
   (forall v, SubOpAxisInfoVisitor.getConstantValue op lhs rhs = Some v <->
      exists l r, constantValue lhs = Some l /\ constantValue rhs = Some r /\
                  v = Int64.sub l r)) /\
  (AddOpAxisInfoVisitor.getContiguity op example_A example_B 0 = 1 /\
   AddOpAxisInfoVisitor.getDivisibility op example_A example_B 0 = 4 /\
   AddOpAxisInfoVisitor.getConstancy op example_A example_B 0 = 1 /\
   SubOpAxisInfoVisitor.getContiguity op example_A example_B 0 = 1 /\
   SubOpAxisInfoVisitor.getDivisibility op example_A example_B 0 = 4 /\
   SubOpAxisInfoVisitor.getConstancy op example_A example_B 0 = 1).
Proof.
  split; [|split].
  - repeat split; try reflexivity.
    + unfold AddOpAxisInfoVisitor.getConstantValue.
      destruct (constantValue lhs) as [l|], (constantValue rhs) as [r|];
        intros E; try discriminate.
      exists l, r. repeat split. congruence.
    + intros (l & r & Hl & Hr & ->).
      unfold AddOpAxisInfoVisitor.getConstantValue.
      now rewrite Hl, Hr.
  - repeat split; try reflexivity.
    + unfold SubOpAxisInfoVisitor.getConstantValue.
      destruct (constantValue lhs) as [l|], (constantValue rhs) as [r|];
        intros E; try discriminate.
      exists l, r. repeat split. congruence.
    + intros (l & r & Hl & Hr & ->).
      unfold SubOpAxisInfoVisitor.getConstantValue.
      now rewrite Hl, Hr.
  - vm_compute. repeat split; reflexivity.
Qed.

(** The sum and the difference are taken in [int64_t]: exact whenever
    they fit. *)
Lemma Int64_add_exact l r : Int64.in_range (l + r) -> Int64.add l r = l + r.
Proof. apply Int64_wrap_small. Qed.

Lemma Int64_sub_exact l r : Int64.in_range (l - r) -> Int64.sub l r = l - r.
Proof. apply Int64_wrap_small. Qed.

Lemma Int64_mul_exact l r : Int64.in_range (l * r) -> Int64.mul l r = l * r.
Proof. apply Int64_wrap_small. Qed.

(** * Multiply *)

(** What the multiply hooks compute: the contiguity is the larger of the
    two candidates, the constancy is the gcd, the divisibility and the
    constant value are [int64_t] products. *)
Lemma mul_transfer (op : Operation) (lhs rhs : AxisInfo) (d : nat) :
  MulIOpAxisInfoVisitor.getContiguity op lhs rhs d =
    Z.max (if decide (constantValue rhs = Some 1) then nth d (contiguity lhs) 0 else 1)
          (if decide (constantValue lhs = Some 1) then nth d (contiguity rhs) 0 else 1) /\
  MulIOpAxisInfoVisitor.getConstancy op lhs rhs d =
    gcd (nth d (constancy lhs) 0) (nth d (constancy rhs) 0) /\
  MulIOpAxisInfoVisitor.getDivisibility op lhs rhs d =
    Int64.wrap (nth d (divisibility lhs) 0 * nth d (divisibility rhs) 0) /\
  (forall v, MulIOpAxisInfoVisitor.getConstantValue op lhs rhs = Some v <->
     exists l r, constantValue lhs = Some l /\ constantValue rhs = Some r /\
                 v = Int64.mul l r).
Proof.
  repeat split; try reflexivity.
  - unfold MulIOpAxisInfoVisitor.getContiguity, Info.getContiguity.
    destruct (constantValue lhs) as [l|], (constantValue rhs) as [r|]; simpl;
      repeat match goal with
             | |- context [Z.eqb ?u 1] => destruct (Z.eqb_spec u 1); subst
             | |- context [decide ?P] => destruct (decide P)
             end; congruence.
  - unfold MulIOpAxisInfoVisitor.getConstantValue.
    destruct (constantValue lhs) as [l|], (constantValue rhs) as [r|];
      intros E; try discriminate.
    exists l, r. repeat split. congruence.
  - intros (l & r & Hl & Hr & ->).
    unfold MulIOpAxisInfoVisitor.getConstantValue.
    now rewrite Hl, Hr.
Qed.

(** The divisibility of a product is the exact product as long as that
    product fits [int64_t]. *)
Lemma mul_divisibility_exact (op : Operation) (lhs rhs : AxisInfo) (d : nat) :
  Int64.in_range (Info.getDivisibility lhs d * Info.getDivisibility rhs d) ->
  MulIOpAxisInfoVisitor.getDivisibility op lhs rhs d =
    Info.getDivisibility lhs d * Info.getDivisibility rhs d.
Proof. apply Int64_wrap_small. Qed.

(** C6: two operands each divisible by 2^60 along axis 0, without
    constant value: the exact product of the divisibilities is 2^120, the
    multiply transfer function returns divisibility 0. *)
Theorem mul_divisibility_not_exact (op : Operation) :
  Info.getDivisibility divisible_2_60 0 * Info.getDivisibility divisible_2_60 0
    = 2 ^ 120 /\
  MulIOpAxisInfoVisitor.getDivisibility op divisible_2_60 divisible_2_60 0 = 0 /\
  MulIOpAxisInfoVisitor.getDivisibility op divisible_2_60 divisible_2_60 0 <>
    Info.getDivisibility divisible_2_60 0 * Info.getDivisibility divisible_2_60 0.
Proof. vm_compute. repeat split; discriminate. Qed.

(** C9: a function argument declared divisible by 2^30 starts with a
    record whose entries are all at least 1; so has its square, of
    divisibility 2^60; the square of that square is a known record whose
    divisibility entry is 0. *)
Theorem mul_breaks_entries_ge_1 (U : Utility) :
  getPessimisticValueState hinted_argument = divisible_2_30 /\
  entries_ge_1 divisible_2_30 /\
  AxisInfoVisitorList.apply scalar_mul [divisible_2_30; divisible_2_30]
    = Done divisible_2_60 /\
  entries_ge_1 divisible_2_60 /\
  MulIOpAxisInfoVisitor.getDivisibility scalar_mul divisible_2_60 divisible_2_60 0 = 0 /\
  AxisInfoVisitorList.apply scalar_mul [divisible_2_60; divisible_2_60]
    = Done (mkAxisInfo [1] [0] [1] None) /\
  Info.known (mkAxisInfo [1] [0] [1] None) = true /\
  ~ entries_ge_1 (mkAxisInfo [1] [0] [1] None).
Proof.
  repeat split; try (repeat constructor; vm_compute; discriminate).
  intros (_ & H & _). simpl in H. inversion H; subst. lia.
Qed.

(** * The entries stay at least 1 everywhere else *)

Lemma join_keeps_entries_ge_1 a b r :
  Info.known a = true -> Info.known b = true ->
  Info.getRank a = Info.getRank b ->
  well_formed a -> well_formed b ->
  entries_ge_1 a -> entries_ge_1 b ->
  join a b = Done r ->
  entries_ge_1 r.
Proof.
  intros Ka Kb Hr [Wa1 Wa2] [Wb1 Wb2] (A1 & A2 & A3) (B1 & B2 & B3) Hj.
  rewrite join_known in Hj by assumption. injection Hj as <-.
  unfold entries_ge_1, Info.getContiguity, Info.getDivisibility,
    Info.getConstancy, Info.getRank in *. simpl.
  repeat split; apply for_each_dim_Forall; intros d Hd;
    apply gcd_pos; apply nth_ge_1; try assumption; lia.
Qed.

(** The per-axis rules of the binary visitors on operands whose entries
    along [d] are at least 1: every rule returns at least 1, the product
    of multiply under the proviso that it fits [int64_t]. *)
Lemma binary_rules_keep_ge_1 (op : Operation) (lhs rhs : AxisInfo) (d : nat) :
  1 <= Info.getContiguity lhs d -> 1 <= Info.getContiguity rhs d ->
  1 <= Info.getDivisibility lhs d -> 1 <= Info.getDivisibility rhs d ->
  1 <= Info.getConstancy lhs d -> 1 <= Info.getConstancy rhs d ->
  (1 <= AddOpAxisInfoVisitor.getContiguity op lhs rhs d /\
   1 <= AddOpAxisInfoVisitor.getDivisibility op lhs rhs d /\
   1 <= AddOpAxisInfoVisitor.getConstancy op lhs rhs d) /\
  (1 <= SubOpAxisInfoVisitor.getContiguity op lhs rhs d /\
   1 <= SubOpAxisInfoVisitor.getDivisibility op lhs rhs d /\
   1 <= SubOpAxisInfoVisitor.getConstancy op lhs rhs d) /\
  (1 <= MulIOpAxisInfoVisitor.getContiguity op lhs rhs d /\
   1 <= MulIOpAxisInfoVisitor.getConstancy op lhs rhs d /\
   (Int64.in_range (Info.getDivisibility lhs d * Info.getDivisibility rhs d) ->
    1 <= MulIOpAxisInfoVisitor.getDivisibility op lhs rhs d)) /\
  (1 <= DivOpAxisInfoVisitor.getContiguity op lhs rhs d /\
   1 <= DivOpAxisInfoVisitor.getConstancy op lhs rhs d /\
   exists v, DivOpAxisInfoVisitor.getDivisibility op lhs rhs d = Done v /\ 1 <= v) /\
  (1 <= RemOpAxisInfoVisitor.getContiguity op lhs rhs d /\
   1 <= RemOpAxisInfoVisitor.getDivisibility op lhs rhs d /\
   1 <= RemOpAxisInfoVisitor.getConstancy op lhs rhs d).
Proof.
  intros HcL HcR HdL HdR HkL HkR.
  assert (Hg : forall x y, 1 <= x -> 1 <= y -> 1 <= gcd x y) by apply gcd_pos.
  repeat split.
  - unfold AddOpAxisInfoVisitor.getContiguity.
    pose proof (Hg _ _ HkL HcR). lia.
  - now apply Hg.
  - now apply Hg.
  - unfold SubOpAxisInfoVisitor.getContiguity.
    pose proof (Hg _ _ HkL HcR). lia.
  - now apply Hg.
  - now apply Hg.
  - unfold MulIOpAxisInfoVisitor.getContiguity.
    destruct (_ && _), (_ && _); lia.
  - now apply Hg.
  - intros Hin. rewrite mul_divisibility_exact by assumption. nia.
  - unfold DivOpAxisInfoVisitor.getContiguity. destruct (_ && _); lia.
  - unfold DivOpAxisInfoVisitor.getConstancy,
      BinaryOpVisitorImpl.getConstancy.
    destruct (resultType op); [|lia].
    pose proof (Hg _ _ HkL HkR). destruct (_ && _); lia.
  - unfold DivOpAxisInfoVisitor.getDivisibility, Int64Div.sdiv.
    set (l := Info.getDivisibility lhs d) in *.
    set (r := Info.getDivisibility rhs d) in *.
    pose proof (Hg _ _ HdL HdR) as Hpos.
    pose proof (gcd_le_l l r HdL ltac:(lia)) as Hle.
    assert (Hle' : gcd l r <= r).
    { rewrite gcd_comm_nonneg by lia. apply gcd_le_l; lia. }
    destruct (Z.eqb_spec (gcd l r) 0); [lia|].
    destruct (Z.eqb_spec (gcd l r) (-1)); [lia|].
    rewrite !andb_false_r. simpl. eexists. split; [reflexivity|].
    apply Hg.
    + rewrite Z.quot_div_nonneg by lia. apply Z.div_le_lower_bound; lia.
    + rewrite Z.quot_div_nonneg by lia. apply Z.div_le_lower_bound; lia.
  - unfold RemOpAxisInfoVisitor.getContiguity,
      BinaryOpVisitorImpl.getContiguity.
    destruct (resultType op); [|lia]. destruct (_ && _); lia.
  - now apply Hg.
  - now apply Hg.
Qed.

(** * Integer divide and remainder *)

(** C1: both operands carry a constant and the divisor's constant is 0:
    the divide and the remainder transfer functions evaluate the
    quotient (remainder), a division by zero; no constant value, and no
    result, is returned. *)
Theorem div_rem_constant_zero_divisor (op : Operation) (lhs rhs : AxisInfo) (l : Z)
    (Hl : constantValue lhs = Some l)
    (Hr : constantValue rhs = Some 0) :
  DivOpAxisInfoVisitor.getConstantValue op lhs rhs = Crash DivisionByZero /\
  RemOpAxisInfoVisitor.getConstantValue op lhs rhs = Crash DivisionByZero /\
  DivOpAxisInfoVisitor.getConstantValue op lhs rhs <> Done None /\
  RemOpAxisInfoVisitor.getConstantValue op lhs rhs <> Done None.
Proof.
  unfold DivOpAxisInfoVisitor.getConstantValue,
    RemOpAxisInfoVisitor.getConstantValue.
  rewrite Hl, Hr. simpl. repeat split; discriminate.
Qed.

(** A quotient of the constant 4 by the constant 0. *)
Lemma div_rem_constant_zero_divisor_witness :
  DivOpAxisInfoVisitor.getConstantValue example_div four_everywhere zero_everywhere
    = Crash DivisionByZero /\
  RemOpAxisInfoVisitor.getConstantValue example_div four_everywhere zero_everywhere
    = Crash DivisionByZero /\
  DivOpAxisInfoVisitor.getConstantValue example_div four_everywhere zero_everywhere
    <> Done None /\
  RemOpAxisInfoVisitor.getConstantValue example_div four_everywhere zero_everywhere
    <> Done None.
Proof.
  apply (div_rem_constant_zero_divisor example_div four_everywhere
           zero_everywhere 4); reflexivity.
Defined.

(** The whole transfer step of a divide or remainder with a constant
    zero divisor: the assembled result is never reached. *)
Lemma apply_div_rem_zero_divisor (U : Utility) :
  AxisInfoVisitorList.apply example_div [four_everywhere; zero_everywhere]
    = Crash DivisionByZero /\
  AxisInfoVisitorList.apply
    (mkOperation RemSIOp (getResults example_div) (operandTypes example_div))
    [four_everywhere; zero_everywhere] = Crash DivisionByZero.
Proof. split; reflexivity. Qed.

(** With a non-zero divisor (and a quotient that fits) the constant value
    is the truncated quotient, respectively the remainder. *)
Lemma div_rem_constant_value (op : Operation) (lhs rhs : AxisInfo) (l r : Z) :
  constantValue lhs = Some l -> constantValue rhs = Some r ->
  r <> 0 -> ~ (l = Int64.min_signed /\ r = -1) ->
  DivOpAxisInfoVisitor.getConstantValue op lhs rhs = Done (Some (Z.quot l r)) /\
  RemOpAxisInfoVisitor.getConstantValue op lhs rhs = Done (Some (Z.rem l r)).
Proof.
  intros Hl Hr Hz Ho.
  unfold DivOpAxisInfoVisitor.getConstantValue,
    RemOpAxisInfoVisitor.getConstantValue, Int64Div.sdiv, Int64Div.srem.
  rewrite Hl, Hr.
  destruct (Z.eqb_spec r 0); [contradiction|].
  destruct (Z.eqb_spec l Int64.min_signed), (Z.eqb_spec r (-1)); simpl;
    try (split; reflexivity).
  exfalso. apply Ho. now split.
Qed.




(** * Integer compare *)

(** C3, as stated: a signed "less than" whose lhs is fully constant and
    whose rhs is fully contiguous along axis 0 of a tensor of 4 elements.
    The claimed constancy is [gcd contR (gcd divL divR) = 4]; the compare
    transfer function returns 1. *)
Lemma cmp_constancy_is_not_claimed :
  CmpOpAxisInfoVisitor.getAxisInfo CmpIPredicate.slt example_cmp [constant4; contiguous4] =
    Done (mkAxisInfo [1] [1] [1] None) /\
  Claimed.cmpConstancy CmpIPredicate.slt [4] constant4 contiguous4 0 = 4 /\
  Info.getConstancy (mkAxisInfo [1] [1] [1] None) 0 <>
    Claimed.cmpConstancy CmpIPredicate.slt [4] constant4 contiguous4 0.
Proof. vm_compute. repeat split; discriminate. Qed.

(** C3, amended: on a ranked tensor result, when an operand has no
    constant value, the compare transfer function returns a record
    without constant value, whose contiguity and divisibility are 1 on
    every axis and whose constancy along [d] is [gcd constL constR],
    raised to [gcd contL (gcd divL divR)] - the contiguity of the lhs in
    both situations - exactly when the lhs is fully contiguous and the
    rhs fully constant with a predicate outside the >= family, or the
    rhs is fully contiguous and the lhs fully constant with a predicate
    outside the <= family. *)
Theorem cmp_transfer (predicate : CmpIPredicate.t) (op : Operation)
    (shape : list Z) (layout : Encoding) (lhs rhs : AxisInfo)
    (Hty : resultType op = RankedTensorType shape layout)
    (Hnone : constantValue lhs = None \/ constantValue rhs = None) :
  exists result,
    CmpOpAxisInfoVisitor.getAxisInfo predicate op [lhs; rhs] = Done result /\
    Info.getRank result = length shape /\
    constantValue result = None /\
    forall d, (d < length shape)%nat ->
      Info.getContiguity result d = 1 /\
      Info.getDivisibility result d = 1 /\
      Info.getConstancy result d =
        (if (CmpOpAxisInfoVisitor.notGePredicate predicate
             && (AxisInfoVisitor.isContiguousDim lhs shape d
                 && AxisInfoVisitor.isConstantDim rhs shape d))
            || (CmpOpAxisInfoVisitor.notSePredicate predicate
                && (AxisInfoVisitor.isConstantDim lhs shape d
                    && AxisInfoVisitor.isContiguousDim rhs shape d))
         then Z.max (gcd (Info.getConstancy lhs d) (Info.getConstancy rhs d))
                    (gcd (Info.getContiguity lhs d)
                         (gcd (Info.getDivisibility lhs d)
                              (Info.getDivisibility rhs d)))
         else gcd (Info.getConstancy lhs d) (Info.getConstancy rhs d)).
Proof.
  unfold CmpOpAxisInfoVisitor.getAxisInfo. rewrite Hty. simpl.
  eexists. split; [reflexivity|].
  assert (Hhas : has_value (constantValue lhs) && has_value (constantValue rhs) = false).
  { destruct Hnone as [-> | ->]; simpl; [reflexivity|apply andb_false_r]. }
  split; [|split].
  - unfold Info.getRank. simpl. apply for_each_dim_length.
  - unfold CmpOpAxisInfoVisitor.loopConstantValue. simpl.
    destruct (length shape); [reflexivity|].
    destruct Hnone as [-> | ->]; [reflexivity|].
    now destruct (constantValue lhs).
  - intros d Hd.
    unfold Info.getContiguity, Info.getDivisibility, Info.getConstancy. simpl.
    rewrite !for_each_dim_nth by assumption.
    unfold CmpOpAxisInfoVisitor.constHint. rewrite Hhas.
    repeat split.
Qed.

(** A constant compared with a run of 4 consecutive integers. *)
Lemma cmp_transfer_witness :
  exists result,
    CmpOpAxisInfoVisitor.getAxisInfo CmpIPredicate.slt example_cmp [constant4; contiguous4] =
      Done result /\
    Info.getRank result = 1%nat /\
    constantValue result = None /\
    forall d, (d < 1)%nat ->
      Info.getContiguity result d = 1 /\
      Info.getDivisibility result d = 1 /\
      Info.getConstancy result d =
        (if (CmpOpAxisInfoVisitor.notGePredicate CmpIPredicate.slt
             && (AxisInfoVisitor.isContiguousDim constant4 [4] d
                 && AxisInfoVisitor.isConstantDim contiguous4 [4] d))
            || (CmpOpAxisInfoVisitor.notSePredicate CmpIPredicate.slt
                && (AxisInfoVisitor.isConstantDim constant4 [4] d
                    && AxisInfoVisitor.isContiguousDim contiguous4 [4] d))
         then Z.max (gcd (Info.getConstancy constant4 d) (Info.getConstancy contiguous4 d))
                    (gcd (Info.getContiguity constant4 d)
                         (gcd (Info.getDivisibility constant4 d)
                              (Info.getDivisibility contiguous4 d)))
         else gcd (Info.getConstancy constant4 d) (Info.getConstancy contiguous4 d)).
Proof.
  apply (cmp_transfer CmpIPredicate.slt example_cmp [4] blocked_layout constant4 contiguous4);
    [reflexivity | left; reflexivity].
Defined.

(** * Alignment queries *)

(** C7, as stated: a pointer tensor whose divisibility and contiguity
    along the fastest axis are both 2^32. The claimed alignment is their
    minimum, 2^32; the query returns 0. *)
Lemma ptr_alignment_is_not_min :
  lookupLatticeElement wide_store wide_ptr =
    Done (mkLatticeElement
            (mkAxisInfo [4294967296] [4294967296] [4294967296] None) false) /\
  getPtrAlignment wide_store wide_ptr = Done 0 /\
  getPtrAlignment wide_store wide_ptr <>
    Done (Z.min (nth 0 [4294967296] 0) (nth 0 [4294967296] 0)) /\
  getMaskAlignment wide_store wide_ptr = Done 1 /\
  getMaskAlignment wide_store wide_ptr <>
    Done (Z.max (nth 0 [4294967296] 0) 1).
Proof. vm_compute. repeat split; discriminate. Qed.

(** C7, amended: for a ranked tensor, [getPtrAlignment] returns the
    minimum of the divisibility and the contiguity along [order[0]],
    converted to [unsigned] - the minimum itself when it lies in
    [0, 2^32); [getMaskAlignment] returns the larger of 1 and the
    constancy along [order[0]] converted to [unsigned]; and each of the
    three queries returns 1 on a value that is not a ranked tensor. *)
Theorem alignment_queries (store : Store)
    (v : Value) (shape : list Z) (layout : Encoding) (e : LatticeElement)
    (scalar : Value)
    (Hty : getType v = RankedTensorType shape layout)
    (Hslot : store !! valueId v = Some e)
    (Hscalar : getType scalar = ScalarType) :
  let axis := nth 0 (getOrder layout) 0%nat in
  let maxMultiple := nth axis (divisibility (getValue e)) 0 in
  let maxContig := nth axis (contiguity (getValue e)) 0 in
  let maskConstancy := nth axis (constancy (getValue e)) 0 in
  getPtrAlignment store v = Done (Z.min maxMultiple maxContig mod 2 ^ 32) /\
  (0 <= Z.min maxMultiple maxContig < 2 ^ 32 ->
   getPtrAlignment store v = Done (Z.min maxMultiple maxContig)) /\
  getMaskAlignment store v = Done (Z.max (maskConstancy mod 2 ^ 32) 1) /\
  (0 <= maskConstancy < 2 ^ 32 ->
   getMaskAlignment store v = Done (Z.max maskConstancy 1)) /\
  getPtrVectorSize store scalar = Done 1 /\
  getPtrAlignment store scalar = Done 1 /\
  getMaskAlignment store scalar = Done 1.
Proof.
  intros axis maxMultiple maxContig maskConstancy.
  assert (Hp : getPtrAlignment store v = Done (Z.min maxMultiple maxContig mod 2 ^ 32)).
  { unfold getPtrAlignment, lookupLatticeElement. rewrite Hty, Hslot. reflexivity. }
  assert (Hm : getMaskAlignment store v = Done (Z.max (maskConstancy mod 2 ^ 32) 1)).
  { unfold getMaskAlignment, lookupLatticeElement. rewrite Hty, Hslot. reflexivity. }
  repeat split.
  - exact Hp.
  - intros Hr. rewrite Hp. now rewrite Z.mod_small.
  - exact Hm.
  - intros Hr. rewrite Hm. now rewrite Z.mod_small.
  - unfold getPtrVectorSize. now rewrite Hscalar.
  - unfold getPtrAlignment. now rewrite Hscalar.
  - unfold getMaskAlignment. now rewrite Hscalar.
Qed.

(** The worked example of the specification: divisibility 16 and
    contiguity 8 along the fastest axis give alignment 8. *)
Lemma alignment_queries_witness :
  getPtrAlignment ptr32_store ptr32 = Done 8 /\
  getMaskAlignment ptr32_store ptr32 = Done 1 /\
  getPtrVectorSize ptr32_store scalar_value = Done 1.
Proof.
  pose proof (alignment_queries ptr32_store ptr32 [32] blocked_layout
                ptr32_slot scalar_value eq_refl eq_refl eq_refl) as H.
  cbv zeta in H. destruct H as (Hp & _ & Hm & _ & Hv & _).
  split; [exact Hp | split; [exact Hm | exact Hv]].
Defined.

(** * Permanently fixed slots *)

Lemma exec_bind_Done {A B} (m : exec A) (k : A -> exec B) (b : B) :
  exec_bind m k = Done b -> exists a, m = Done a /\ k a = Done b.
Proof. destruct m as [a|f]; simpl; [eauto|discriminate]. Qed.

Lemma getLatticeElement_lookup store r e :
  store !! valueId r = Some e -> getLatticeElement store r = e.
Proof. intros H. unfold getLatticeElement. now rewrite H. Qed.

Lemma Lattice_join_fixed r rhs :
  Lattice.join (fixedSlot r) rhs = Done (NoChange, fixedSlot r).
Proof. reflexivity. Qed.

Lemma markPessimisticFixpoint_snd v e :
  snd (Lattice.markPessimisticFixpoint v e) = fixedSlot v.
Proof.
  unfold Lattice.markPessimisticFixpoint. now destruct (_ && _).
Qed.

Lemma markAllPessimisticFixpoint_cons v rest store :
  snd (markAllPessimisticFixpoint (v :: rest) store) =
  snd (markAllPessimisticFixpoint rest (<[valueId v := fixedSlot v]> store)).
Proof.
  simpl.
  pose proof (markPessimisticFixpoint_snd v (getLatticeElement store v)) as E.
  destruct (Lattice.markPessimisticFixpoint v (getLatticeElement store v)) as [c e].
  simpl in E. subst e.
  now destruct (markAllPessimisticFixpoint rest _).
Qed.

(** A slot fixed at the pessimistic default of [r] survives the marking
    of any values, as long as its identifier names only [r]. *)
Lemma markAllPessimisticFixpoint_keeps r values store :
  (forall v, In v values -> valueId v = valueId r -> v = r) ->
  store !! valueId r = Some (fixedSlot r) ->
  snd (markAllPessimisticFixpoint values store) !! valueId r = Some (fixedSlot r).
Proof.
  revert store. induction values as [|v rest IH]; intros store Hn Hs.
  - exact Hs.
  - rewrite markAllPessimisticFixpoint_cons. apply IH.
    + intros w Hw. apply Hn. now right.
    + destruct (decide (valueId v = valueId r)) as [E|E].
      * rewrite (Hn v (or_introl Logic.eq_refl) E). apply lookup_insert_eq.
      * rewrite lookup_insert_ne by assumption. exact Hs.
Qed.

(** Every marked value ends up fixed at its pessimistic default. *)
Lemma markAllPessimisticFixpoint_marks values store r :
  NoDup (map valueId values) ->
  In r values ->
  snd (markAllPessimisticFixpoint values store) !! valueId r = Some (fixedSlot r).
Proof.
  revert store. induction values as [|v rest IH]; intros store Hnd Hin.
  - destruct Hin.
  - rewrite markAllPessimisticFixpoint_cons.
    simpl in Hnd. apply NoDup_cons in Hnd as [Hv Hnd].
    destruct Hin as [->|Hin].
    + apply markAllPessimisticFixpoint_keeps; [|apply lookup_insert_eq].
      intros w Hw E. exfalso. apply Hv. rewrite <- E.
      apply list_elem_of_In. now apply in_map.
    + now apply IH.
Qed.

Lemma joinResults_keeps r curr values result store c store' :
  (forall v, In v values -> valueId v = valueId r -> v = r) ->
  store !! valueId r = Some (fixedSlot r) ->
  joinResults curr values result store = Done (c, store') ->
  store' !! valueId r = Some (fixedSlot r).
Proof.
  revert result store. induction values as [|v rest IH]; intros result store Hn Hs Hj.
  - simpl in Hj. now inversion Hj; subst.
  - simpl in Hj. apply exec_bind_Done in Hj as ([c1 e1] & Hjoin & Hrest).
    refine (IH _ _ (fun w Hw => Hn w (or_intror Hw)) _ Hrest).
    simpl. destruct (decide (valueId v = valueId r)) as [E|E].
    + rewrite (Hn v (or_introl Logic.eq_refl) E) in Hjoin.
      rewrite (getLatticeElement_lookup _ _ _ Hs), Lattice_join_fixed in Hjoin.
      injection Hjoin as <- <-. rewrite E. apply lookup_insert_eq.
    + rewrite lookup_insert_ne by assumption. exact Hs.
Qed.

(** One event of the driver leaves a permanently fixed slot as it is. *)
Lemma step_keeps `{Utility} r ev store store' :
  namesOnly r ev ->
  store !! valueId r = Some (fixedSlot r) ->
  step ev store = Done store' ->
  store' !! valueId r = Some (fixedSlot r).
Proof.
  intros Hn Hs Hstep. destruct ev as [op operands|value rhs]; simpl in Hstep.
  - apply exec_bind_Done in Hstep as ([c s] & Hvisit & Hdone).
    simpl in Hdone. injection Hdone as <-. unfold visitOperation in Hvisit.
    apply exec_bind_Done in Hvisit as (curr & _ & Hvisit).
    destruct (Info.getRank curr =? 0)%nat.
    + injection Hvisit as Hm.
      change s with (snd (c, s)). rewrite <- Hm.
      now apply markAllPessimisticFixpoint_keeps.
    + now apply (joinResults_keeps r curr (getResults op) NoChange store c s).
  - apply exec_bind_Done in Hstep as ([c e] & Hjoin & Hdone).
    simpl in Hdone. injection Hdone as <-.
    destruct (decide (valueId value = valueId r)) as [E|E].
    + rewrite (Hn value (or_introl Logic.eq_refl) E) in Hjoin.
      rewrite (getLatticeElement_lookup _ _ _ Hs), Lattice_join_fixed in Hjoin.
      injection Hjoin as <- <-. rewrite E. apply lookup_insert_eq.
    + rewrite lookup_insert_ne by assumption. exact Hs.
Qed.

Lemma reaches_keeps `{Utility} r store evs store' :
  Forall (namesOnly r) evs ->
  store !! valueId r = Some (fixedSlot r) ->
  reaches store evs store' ->
  store' !! valueId r = Some (fixedSlot r).
Proof.
  intros Hn Hs Hr. induction Hr as [store|store ev store1 evs store2 Hstep Hr IH].
  - exact Hs.
  - apply Forall_cons in Hn as [Hev Hn].
    apply IH; [assumption|]. now apply (step_keeps r ev store).
Qed.

(** The entry point on an operation whose transfer step yields the
    unknown record. *)
Lemma visitOperation_unknown `{Utility} op operands store curr :
  AxisInfoVisitorList.apply op operands = Done curr ->
  Info.getRank curr = 0%nat ->
  visitOperation op operands store =
    Done (markAllPessimisticFixpoint (getResults op) store).
Proof.
  intros Happly Hrank. unfold visitOperation. rewrite Happly. simpl.
  now rewrite Hrank.
Qed.

Lemma getPessimisticValueState_result (r : Value) :
  asBlockArgument r = None ->
  getPessimisticValueState r =
    match getType r with
    | RankedTensorType shape _ =>
        mkAxisInfo (repeat 1 (length shape)) (repeat 1 (length shape))
                   (repeat 1 (length shape)) None
    | ScalarType => mkAxisInfo [1] [1] [1] None
    end.
Proof.
  intros Hr. unfold getPessimisticValueState. rewrite Hr.
  now destruct (getType r).
Qed.

(** C8: when the transfer step of an operation yields the unknown
    record, the entry point returns, and afterwards the slot of every
    result holds the pessimistic default of that result - all-1 vectors
    of the rank of its type, no constant - and is marked fixed; whatever
    events follow (visits of any operations with any operand records,
    joins of any records), the slot is the same in every store reached. *)
Theorem unknown_results_permanently_fixed (U : Utility) (op : Operation)
    (operands : list AxisInfo) (store : Store) (curr : AxisInfo)
    (Happly : AxisInfoVisitorList.apply op operands = Done curr)
    (Hunknown : Info.getRank curr = 0%nat)
    (Hids : NoDup (map valueId (getResults op)))
    (Hresults : Forall (fun r => asBlockArgument r = None) (getResults op)) :
  exists change store',
    visitOperation op operands store = Done (change, store') /\
    forall r, In r (getResults op) ->
      store' !! valueId r =
        Some (mkLatticeElement (getPessimisticValueState r) true) /\
      getPessimisticValueState r =
        match getType r with
        | RankedTensorType shape _ =>
            mkAxisInfo (repeat 1 (length shape)) (repeat 1 (length shape))
                       (repeat 1 (length shape)) None
        | ScalarType => mkAxisInfo [1] [1] [1] None
        end /\
      forall evs store'',
        Forall (namesOnly r) evs ->
        reaches store' evs store'' ->
        store'' !! valueId r = store' !! valueId r.
Proof.
  exists (fst (markAllPessimisticFixpoint (getResults op) store)),
         (snd (markAllPessimisticFixpoint (getResults op) store)).
  split.
  - rewrite (visitOperation_unknown op operands store curr Happly Hunknown).
    now destruct (markAllPessimisticFixpoint _ _).
  - intros r Hr.
    pose proof (markAllPessimisticFixpoint_marks _ store r Hids Hr) as Hs.
    split; [exact Hs|]. split.
    + apply getPessimisticValueState_result.
      rewrite List.Forall_forall in Hresults. now apply Hresults.
    + intros evs store'' Hn Hreach. rewrite Hs.
      exact (reaches_keeps r _ evs store'' Hn Hs Hreach).
Qed.

(** An operation of a kind without visitor, visited on an empty store. *)
Lemma unknown_results_permanently_fixed_witness :
  exists change store',
    visitOperation (U := no_power_of_two_info) unregistered_op [] (∅ : Store) = Done (change, store') /\
    forall r, In r (getResults unregistered_op) ->
      store' !! valueId r =
        Some (mkLatticeElement (getPessimisticValueState r) true) /\
      getPessimisticValueState r =
        match getType r with
        | RankedTensorType shape _ =>
            mkAxisInfo (repeat 1 (length shape)) (repeat 1 (length shape))
                       (repeat 1 (length shape)) None
        | ScalarType => mkAxisInfo [1] [1] [1] None
        end /\
      forall evs store'',
        Forall (namesOnly r) evs ->
        reaches (U := no_power_of_two_info) store' evs store'' ->
        store'' !! valueId r = store' !! valueId r.
Proof.
  apply (unknown_results_permanently_fixed no_power_of_two_info
           unregistered_op [] ∅ AxisInfo_default).
  - reflexivity.
  - reflexivity.
  - simpl. apply NoDup_cons. split; [apply not_elem_of_nil|apply NoDup_nil_2].
  - simpl. repeat constructor.
Defined.

(** * Scalar compares and selects *)

Lemma apply_scalar_cmp_select `{Utility} op operands :
  isCmpOrSelect (opKind op) = true ->
  resultType op = ScalarType ->
  AxisInfoVisitorList.apply op operands = Done AxisInfo_default.
Proof.
  intros Hkind Hty. unfold AxisInfoVisitorList.apply.
  destruct (opKind op); try discriminate Hkind;
    unfold CmpOpAxisInfoVisitor.getAxisInfo, SelectOpAxisInfoVisitor.getAxisInfo;
    now rewrite Hty.
Qed.

(** C10: for an integer compare or a select whose result is not a ranked
    tensor, the transfer function returns the unknown record, whatever
    the operands; the entry point then returns with the slot of the
    result holding the pessimistic default - rank 1, all entries 1, no
    constant - marked fixed, and the slot is the same in every store
    reached afterwards. *)
Theorem scalar_compare_select_fixed (U : Utility) (op : Operation)
    (operands : list AxisInfo) (store : Store) (res : Value)
    (Hkind : isCmpOrSelect (opKind op) = true)
    (Hres : getResults op = [res])
    (Hop : asBlockArgument res = None)
    (Hty : getType res = ScalarType) :
  AxisInfoVisitorList.apply op operands = Done AxisInfo_default /\
  Info.known AxisInfo_default = false /\
  exists change store',
    visitOperation op operands store = Done (change, store') /\
    store' !! valueId res =
      Some (mkLatticeElement (mkAxisInfo [1] [1] [1] None) true) /\
    forall evs store'',
      Forall (namesOnly res) evs ->
      reaches store' evs store'' ->
      store'' !! valueId res =
        Some (mkLatticeElement (mkAxisInfo [1] [1] [1] None) true).
Proof.
  assert (Hrt : resultType op = ScalarType).
  { unfold resultType. now rewrite Hres. }
  pose proof (apply_scalar_cmp_select op operands Hkind Hrt) as Happly.
  assert (Hslot : fixedSlot res = mkLatticeElement (mkAxisInfo [1] [1] [1] None) true).
  { unfold fixedSlot. rewrite getPessimisticValueState_result by assumption.
    now rewrite Hty. }
  split; [exact Happly|]. split; [reflexivity|].
  exists (fst (markAllPessimisticFixpoint (getResults op) store)),
         (snd (markAllPessimisticFixpoint (getResults op) store)).
  assert (Hs : snd (markAllPessimisticFixpoint (getResults op) store) !! valueId res
               = Some (fixedSlot res)).
  { apply markAllPessimisticFixpoint_marks.
    - rewrite Hres. simpl. apply NoDup_cons.
      split; [apply not_elem_of_nil|apply NoDup_nil_2].
    - rewrite Hres. now left. }
  split; [|split].
  - rewrite (visitOperation_unknown op operands store AxisInfo_default Happly
               Logic.eq_refl).
    now destruct (markAllPessimisticFixpoint _ _).
  - now rewrite Hs, Hslot.
  - intros evs store'' Hn Hreach. rewrite <- Hslot.
    exact (reaches_keeps res _ evs store'' Hn Hs Hreach).
Qed.

(** A scalar signed "less than", visited on an empty store. *)
Lemma scalar_compare_select_fixed_witness :
  AxisInfoVisitorList.apply (U := no_power_of_two_info) scalar_cmp
    [example_A; example_B] = Done AxisInfo_default /\
  Info.known AxisInfo_default = false /\
  exists change store',
    visitOperation (U := no_power_of_two_info) scalar_cmp
      [example_A; example_B] (∅ : Store) =
      Done (change, store') /\
    store' !! valueId scalar_value =
      Some (mkLatticeElement (mkAxisInfo [1] [1] [1] None) true) /\
    forall evs store'',
      Forall (namesOnly scalar_value) evs ->
      reaches (U := no_power_of_two_info) store' evs store'' ->
      store'' !! valueId scalar_value =
        Some (mkLatticeElement (mkAxisInfo [1] [1] [1] None) true).
Proof.
  apply (scalar_compare_select_fixed no_power_of_two_info scalar_cmp
           [example_A; example_B] ∅ scalar_value);
    reflexivity.
Defined.

(** A run after a scalar compare has been visited: the compare is
    visited again with other operand records, then a record is joined
    into its result; the slot of the result is as it was. *)
Lemma fixed_slot_example :
  let fixed := mkLatticeElement (mkAxisInfo [1] [1] [1] None) true in
  let store' : Store := {[ valueId scalar_value := fixed ]} in
  visitOperation (U := no_power_of_two_info) scalar_cmp
    [example_A; example_B] (∅ : Store) = Done (Change, store') /\
  reaches (U := no_power_of_two_info) store'
    [Visit scalar_cmp [contiguous4; constant4]; Join scalar_value contiguous8]
    store'.
Proof.
  split; [reflexivity|].
  eapply reaches_cons; [reflexivity|].
  eapply reaches_cons; [|apply reaches_nil].
  vm_compute. reflexivity.
Qed.

(** * The undefined cases of the Euclidean algorithm *)

Lemma rem_in_range a b : Int64.in_range a -> a <> 0 -> Int64.in_range (Z.rem b a).
Proof.
  unfold Int64.in_range, Int64.min_signed, Int64.max_signed.
  intros Ha Hne. pose proof (Z.rem_bound_abs b a Hne). lia.
Qed.

Lemma rem_not_undefined a b :
  Int64.in_range a -> Int64.in_range b -> a <> 0 ->
  ~ gcd_undefined a b -> ~ gcd_undefined (Z.rem b a) a.
Proof.
  unfold gcd_undefined, Int64.in_range, Int64.min_signed, Int64.max_signed.
  intros Ha Hb Hne Hu [[Hr Hm]|[Hr Hm]].
  - pose proof (Z.quot_rem' b a) as E. pose proof (Z.rem_sign_mul b a Hne) as S.
    rewrite Hr in E, S. subst a. apply Hu. right. split; [reflexivity|].
    assert (b <= 0) by lia. lia.
  - pose proof (Z.rem_bound_abs b a Hne). lia.
Qed.

(** Off the two undefined pairs, no division of the recursion is
    undefined, and the checked algorithm returns what [gcdImpl_fuel]
    returns. *)
Lemma gcdImpl_checked_defined n a b r :
  Int64.in_range a -> Int64.in_range b -> ~ gcd_undefined a b ->
  gcdImpl_fuel n a b = Some r ->
  gcdImpl_checked n a b = Some (Done r).
Proof.
  revert a b r. induction n as [|n IH]; intros a b r Ha Hb Hu H; [discriminate|].
  simpl in *. destruct (Z.eqb_spec a 0) as [->|Hne]; [now injection H as <-|].
  destruct (gcdImpl_fuel n (Z.rem b a) a) as [[[g x1] y1]|] eqn:E; [|discriminate].
  assert (Hno : (b =? Int64.min_signed) && (a =? -1) = false).
  { apply andb_false_iff.
    destruct (Z.eqb_spec b Int64.min_signed), (Z.eqb_spec a (-1)); auto.
    exfalso. apply Hu. left. now split. }
  unfold Int64Div.srem, Int64Div.sdiv.
  destruct (Z.eqb_spec a 0); [contradiction|]. rewrite Hno.
  rewrite (IH _ _ _ (rem_in_range a b Ha Hne) Ha
             (rem_not_undefined a b Ha Hb Hne Hu) E).
  now injection H as <-.
Qed.

Lemma gcdImpl_checked_gcdImpl a b :
  Int64.in_range a -> Int64.in_range b -> ~ gcd_undefined a b ->
  gcdImpl_checked (gcd_fuel a) a b = Some (Done (gcdImpl a b)).
Proof.
  intros Ha Hb Hu. destruct (gcd_fuel_enough a b) as [r E].
  unfold gcdImpl. rewrite E. now apply gcdImpl_checked_defined.
Qed.

Lemma gcd_checked_undefined a b :
  gcd_undefined a b -> gcd_checked a b = Some (Crash DivisionOverflow).
Proof. intros [[-> ->]|[-> ->]]; vm_compute; reflexivity. Qed.

(** * Further properties of the Euclidean algorithm *)

Lemma abs_induction (P : Z -> Prop) :
  (forall a, (forall a', Z.abs a' < Z.abs a -> P a') -> P a) ->
  forall a, P a.
Proof.
  intros step a.
  assert (H : forall n, 0 <= n -> forall a, Z.abs a = n -> P a).
  { intros n Hn. pattern n. apply Zlt_0_ind; [|exact Hn].
    clear n Hn. intros n IH _ a0 Ha0. apply step.
    intros a' Ha'. apply (IH (Z.abs a')); [lia|reflexivity]. }
  apply (H (Z.abs a)); [apply Z.abs_nonneg|reflexivity].
Qed.

Lemma Zgcd_rem_l a b : Z.gcd (Z.rem b a) a = Z.gcd a b.
Proof.
  destruct (Z.eq_dec a 0) as [->|Ha].
  - destruct b; reflexivity.
  - pose proof (Z.quot_rem' b a) as E.
    replace (Z.rem b a) with (b + (- Z.quot b a) * a) by lia.
    rewrite Z.gcd_comm. apply Z.gcd_add_mult_diag_r.
Qed.

Lemma gcd_abs_Zgcd (a b : Z) : Z.abs (gcd a b) = Z.gcd a b.
Proof.
  revert b. pattern a. apply abs_induction. clear a. intros a IH b.
  rewrite gcd_unfold. destruct (Z.eqb_spec a 0) as [->|Ha].
  - reflexivity.
  - rewrite IH by (apply Z.rem_bound_abs; assumption).
    apply Zgcd_rem_l.
Qed.

(** X1: on [int64_t] arguments the recursion divides [INT64_MIN] by -1,
    which is undefined, exactly for the pairs (-1, INT64_MIN) and
    (INT64_MIN, -1); on every other pair [gcd] returns, and up to its
    sign the result is the greatest common divisor of the arguments: it
    divides both, and every common divisor divides it. *)
Theorem gcd_abs (a b : Z)
    (Ha : Int64.in_range a) (Hb : Int64.in_range b) :
  (gcd_undefined a b -> gcd_checked a b = Some (Crash DivisionOverflow)) /\
  (~ gcd_undefined a b ->
   gcd_checked a b = Some (Done (gcd a b)) /\
   Z.abs (gcd a b) = Z.gcd a b /\
   (gcd a b | a) /\ (gcd a b | b) /\
   (forall c, (c | a) -> (c | b) -> (c | gcd a b))).
Proof.
  split; [apply gcd_checked_undefined|]. intros Hu.
  pose proof (gcd_abs_Zgcd a b) as E.
  split; [|split; [exact E|split; [|split]]].
  - unfold gcd_checked, gcd. now rewrite gcdImpl_checked_gcdImpl.
  - apply Z.divide_abs_l. rewrite E. apply Z.gcd_divide_l.
  - apply Z.divide_abs_l. rewrite E. apply Z.gcd_divide_r.
  - intros c Hca Hcb. apply Z.divide_abs_r. rewrite E. now apply Z.gcd_greatest.
Qed.

(** The arguments 12 and -18. *)
Lemma gcd_abs_witness :
  (gcd_undefined 12 (-18) -> gcd_checked 12 (-18) = Some (Crash DivisionOverflow)) /\
  (~ gcd_undefined 12 (-18) ->
   gcd_checked 12 (-18) = Some (Done (gcd 12 (-18))) /\
   Z.abs (gcd 12 (-18)) = Z.gcd 12 (-18) /\
   (gcd 12 (-18) | 12) /\ (gcd 12 (-18) | -18) /\
   (forall c, (c | 12) -> (c | -18) -> (c | gcd 12 (-18)))).
Proof.
  apply (gcd_abs 12 (-18)); split; vm_compute; discriminate.
Defined.

Lemma Int64_wrap_congruent z : exists k, Int64.wrap z = z + k * Int64.modulus.
Proof.
  unfold Int64.wrap, Int64.modulus, Int64.half_modulus.
  exists (- ((z + 2 ^ 63) / 2 ^ 64)).
  pose proof (Z.div_mod (z + 2 ^ 63) (2 ^ 64) ltac:(lia)). lia.
Qed.

Lemma gcdImpl_bezout_mod (a b : Z) :
  let '(g, x, y) := gcdImpl a b in
  exists k, a * x + b * y = g + k * Int64.modulus.
Proof.
  revert b. pattern a. apply abs_induction. clear a. intros a IH b.
  rewrite gcdImpl_unfold. destruct (Z.eqb_spec a 0) as [->|Ha].
  - exists 0. lia.
  - specialize (IH (Z.rem b a) (Z.rem_bound_abs b a Ha) a).
    destruct (gcdImpl (Z.rem b a) a) as [[g x1] y1].
    destruct IH as [k0 IH].
    unfold Int64.sub, Int64.mul.
    destruct (Int64_wrap_congruent (Z.quot b a * x1)) as [k2 ->].
    destruct (Int64_wrap_congruent (y1 - (Z.quot b a * x1 + k2 * Int64.modulus)))
      as [k1 ->].
    pose proof (Z.quot_rem' b a) as E.
    exists (k0 + a * (k1 - k2)).
    remember (Z.quot b a) as q. remember (Z.rem b a) as r.
    remember Int64.modulus as M. clear - IH E.
    transitivity (r * x1 + a * y1 + a * (k1 - k2) * M); [subst b; ring|].
    rewrite IH. ring.
Qed.

(** X2: on [int64_t] arguments other than the pairs (-1, INT64_MIN) and
    (INT64_MIN, -1), [gcdImpl] returns, and the coefficients it returns
    through [x] and [y] satisfy Bezout's identity in 64-bit arithmetic:
    [a * x + b * y] and the returned gcd differ by a multiple of 2^64. *)
Theorem gcdImpl_bezout (a b : Z)
    (Ha : Int64.in_range a) (Hb : Int64.in_range b)
    (Hdef : ~ gcd_undefined a b) :
  exists g x y,
    gcdImpl_checked (gcd_fuel a) a b = Some (Done (g, x, y)) /\
    exists k, a * x + b * y = g + k * Int64.modulus.
Proof.
  pose proof (gcdImpl_checked_gcdImpl a b Ha Hb Hdef) as E.
  pose proof (gcdImpl_bezout_mod a b) as B.
  destruct (gcdImpl a b) as [[g x] y]. now exists g, x, y.
Qed.

(** The arguments 12 and -18. *)
Lemma gcdImpl_bezout_witness :
  exists g x y,
    gcdImpl_checked (gcd_fuel 12) 12 (-18) = Some (Done (g, x, y)) /\
    exists k, 12 * x + -18 * y = g + k * Int64.modulus.
Proof.
  apply (gcdImpl_bezout 12 (-18)).
  - split; vm_compute; discriminate.
  - split; vm_compute; discriminate.
  - intros [[H _]|[H _]]; discriminate H.
Defined.

(** X3: on opposite non-zero arguments [gcd] returns its first argument,
    so it is not symmetric there. *)
Theorem gcd_opposite (a : Z) (Ha : a <> 0) :
  gcd a (- a) = a /\ gcd (- a) a = - a /\ gcd a (- a) <> gcd (- a) a.
Proof.
  assert (H1 : gcd a (- a) = a).
  { rewrite gcd_unfold. destruct (Z.eqb_spec a 0); [contradiction|].
    rewrite Z.rem_opp_l, Z.rem_same by assumption. apply gcd_0_l. }
  assert (H2 : gcd (- a) a = - a).
  { rewrite gcd_unfold. destruct (Z.eqb_spec (- a) 0); [lia|].
    rewrite Z.rem_opp_r, Z.rem_same by assumption. apply gcd_0_l. }
  rewrite H1, H2. repeat split. lia.
Qed.

(** The opposite pair 4, -4. *)
Lemma gcd_opposite_witness :
  gcd 4 (- 4) = 4 /\ gcd (- 4) 4 = - 4 /\ gcd 4 (- 4) <> gcd (- 4) 4.
Proof. apply (gcd_opposite 4). discriminate. Defined.

(** * Further properties of join *)

Lemma gcd_nonneg a b : 0 <= a -> 0 <= b -> 0 <= gcd a b.
Proof.
  intros Ha Hb. rewrite gcd_nonneg_Zgcd by assumption. apply Z.gcd_nonneg.
Qed.

Lemma gcd_divide_l a b : (gcd a b | a).
Proof. apply Z.divide_abs_l. rewrite gcd_abs_Zgcd. apply Z.gcd_divide_l. Qed.

Lemma gcd_divide_r a b : (gcd a b | b).
Proof. apply Z.divide_abs_l. rewrite gcd_abs_Zgcd. apply Z.gcd_divide_r. Qed.

Lemma gcd_assoc_nonneg a b c :
  0 <= a -> 0 <= b -> 0 <= c -> gcd (gcd a b) c = gcd a (gcd b c).
Proof.
  intros Ha Hb Hc.
  rewrite (gcd_nonneg_Zgcd (gcd a b) c) by (try apply gcd_nonneg; assumption).
  rewrite (gcd_nonneg_Zgcd a (gcd b c)) by (try apply gcd_nonneg; assumption).
  rewrite !gcd_nonneg_Zgcd by assumption. symmetry. apply Z.gcd_assoc.
Qed.

Lemma gcd_absorb_r a b : 0 <= a -> 0 <= b -> gcd (gcd a b) b = gcd a b.
Proof.
  intros Ha Hb. rewrite gcd_assoc_nonneg by assumption.
  now rewrite gcd_diag.
Qed.

Lemma gcd_absorb_l a b : 0 <= a -> 0 <= b -> gcd (gcd a b) a = gcd a b.
Proof.
  intros Ha Hb. rewrite (gcd_comm_nonneg a b) by assumption.
  now apply gcd_absorb_r.
Qed.

Lemma join_constantValue_assoc (x y z : option Z) :
  let meet (u v : option Z) :=
    if has_value u && has_value v && optional_eqb u v then u else None in
  meet (meet x y) z = meet x (meet y z).
Proof.
  destruct x as [u|], y as [v|], z as [w|]; simpl; try reflexivity;
    repeat match goal with
           | |- context [Z.eqb ?p ?q] => destruct (Z.eqb_spec p q); subst; simpl
           end; congruence.
Qed.

Lemma join_constantValue_absorb (x y : option Z) :
  let meet (u v : option Z) :=
    if has_value u && has_value v && optional_eqb u v then u else None in
  meet (meet x y) y = meet x y /\ meet (meet x y) x = meet x y.
Proof.
  destruct x as [u|], y as [v|]; simpl; try (split; reflexivity);
    repeat match goal with
           | |- context [Z.eqb ?p ?q] => destruct (Z.eqb_spec p q); subst; simpl
           end; split; congruence.
Qed.

Lemma known_rank a : Info.known a = true <-> (0 < Info.getRank a)%nat.
Proof.
  unfold Info.known. destruct (Nat.eqb_spec (Info.getRank a) 0); simpl; split;
    intros; try lia; try discriminate; reflexivity.
Qed.

(** The record built by [join] from two known records. *)
Lemma join_known_result lhs rhs r :
  Info.known lhs = true -> Info.known rhs = true ->
  join lhs rhs = Done r ->
  Info.getRank r = Info.getRank lhs /\ well_formed r /\ Info.known r = true /\
  (forall d, (d < Info.getRank lhs)%nat ->
     Info.getContiguity r d = gcd (Info.getContiguity lhs d) (Info.getContiguity rhs d) /\
     Info.getDivisibility r d = gcd (Info.getDivisibility lhs d) (Info.getDivisibility rhs d) /\
     Info.getConstancy r d = gcd (Info.getConstancy lhs d) (Info.getConstancy rhs d)).
Proof.
  intros Kl Kr Hj. rewrite join_known in Hj by assumption. injection Hj as <-.
  assert (Hrank : Info.getRank
            {| contiguity := for_each_dim (Info.getRank lhs)
                 (fun d => gcd (Info.getContiguity lhs d) (Info.getContiguity rhs d));
               divisibility := for_each_dim (Info.getRank lhs)
                 (fun d => gcd (Info.getDivisibility lhs d) (Info.getDivisibility rhs d));
               constancy := for_each_dim (Info.getRank lhs)
                 (fun d => gcd (Info.getConstancy lhs d) (Info.getConstancy rhs d));
               constantValue :=
                 if has_value (constantValue lhs) && has_value (constantValue rhs)
                    && optional_eqb (constantValue lhs) (constantValue rhs)
                 then constantValue lhs else None |} = Info.getRank lhs).
  { unfold Info.getRank at 1. simpl. apply for_each_dim_length. }
  split; [exact Hrank|]. split; [|split].
  - unfold well_formed. rewrite Hrank. simpl.
    now rewrite !for_each_dim_length.
  - apply known_rank. rewrite Hrank. now apply known_rank.
  - intros d Hd.
    unfold Info.getContiguity, Info.getDivisibility, Info.getConstancy.
    simpl. rewrite !for_each_dim_nth by assumption. repeat split.
Qed.

(** X4: when at most one of the two records is known, [join] reads no
    entry: it fails, at the point marked unreachable, exactly when both
    records are unknown, and otherwise returns the known record
    unchanged, whichever side it is on. *)
Theorem join_returns_iff (a b : AxisInfo)
    (Hone : Info.known a && Info.known b = false) :
  (Info.known a = false /\ Info.known b = false ->
   join a b = Crash Unreachable) /\
  (Info.known a = true -> join a b = Done a) /\
  (Info.known b = true -> join a b = Done b) /\
  ((exists r, join a b = Done r) <-> Info.known a || Info.known b = true).
Proof.
  unfold join.
  destruct (Info.known a) eqn:Ea, (Info.known b) eqn:Eb; simpl in Hone |- *.
  - discriminate Hone.
  - split; [intros [H _]; discriminate H|].
    split; [reflexivity|]. split; [intros H; discriminate H|].
    split; [reflexivity|eauto].
  - split; [intros [_ H]; discriminate H|].
    split; [intros H; discriminate H|]. split; [reflexivity|].
    split; [reflexivity|eauto].
  - split; [reflexivity|].
    split; [intros H; discriminate H|]. split; [intros H; discriminate H|].
    split; [intros [r Hr]; discriminate Hr|intros H; discriminate H].
Qed.

(** A known record joined with the unknown one. *)
Lemma join_returns_iff_witness :
  (Info.known sample_lhs = false /\ Info.known AxisInfo_default = false ->
   join sample_lhs AxisInfo_default = Crash Unreachable) /\
  (Info.known sample_lhs = true -> join sample_lhs AxisInfo_default = Done sample_lhs) /\
  (Info.known AxisInfo_default = true ->
   join sample_lhs AxisInfo_default = Done AxisInfo_default) /\
  ((exists r, join sample_lhs AxisInfo_default = Done r) <->
   Info.known sample_lhs || Info.known AxisInfo_default = true).
Proof. apply (join_returns_iff sample_lhs AxisInfo_default). reflexivity. Defined.

Lemma gcd_checked_above_min (v w : list Z) d :
  Forall (fun x => Int64.min_signed < x <= Int64.max_signed) v ->
  Forall (fun x => Int64.min_signed < x <= Int64.max_signed) w ->
  (d < length v)%nat -> (d < length w)%nat ->
  gcd_checked (nth d v 0) (nth d w 0) = Some (Done (gcd (nth d v 0) (nth d w 0))).
Proof.
  intros Hv Hw Hdv Hdw.
  rewrite List.Forall_forall in Hv, Hw.
  pose proof (Hv _ (nth_In v 0 Hdv)) as Hx.
  pose proof (Hw _ (nth_In w 0 Hdw)) as Hy.
  unfold gcd_checked, gcd. rewrite gcdImpl_checked_gcdImpl; [reflexivity| | |].
  - unfold Int64.in_range. lia.
  - unfold Int64.in_range. lia.
  - intros [[_ H]|[H _]]; lia.
Qed.

(** X5: the join of two known, well-formed records of one rank whose
    entries are [int64_t] values other than [INT64_MIN] is a known,
    well-formed record of that rank; along every axis each of its
    entries is the gcd of the two corresponding entries, computed without
    undefined division, and divides both of them. *)
Theorem join_lower_bound (a b : AxisInfo)
    (Ka : Info.known a = true) (Kb : Info.known b = true)
    (Wa : well_formed a) (Wb : well_formed b)
    (Hrank : Info.getRank a = Info.getRank b)
    (Ma : entries_above_min a) (Mb : entries_above_min b) :
  exists r,
    join a b = Done r /\
    Info.getRank r = Info.getRank a /\ well_formed r /\ Info.known r = true /\
    forall d, (d < Info.getRank a)%nat ->
      (gcd_checked (Info.getContiguity a d) (Info.getContiguity b d)
         = Some (Done (Info.getContiguity r d)) /\
       gcd_checked (Info.getDivisibility a d) (Info.getDivisibility b d)
         = Some (Done (Info.getDivisibility r d)) /\
       gcd_checked (Info.getConstancy a d) (Info.getConstancy b d)
         = Some (Done (Info.getConstancy r d))) /\
      (Info.getContiguity r d | Info.getContiguity a d) /\
      (Info.getContiguity r d | Info.getContiguity b d) /\
      (Info.getDivisibility r d | Info.getDivisibility a d) /\
      (Info.getDivisibility r d | Info.getDivisibility b d) /\
      (Info.getConstancy r d | Info.getConstancy a d) /\
      (Info.getConstancy r d | Info.getConstancy b d).
Proof.
  pose proof (join_known a b Ka Kb) as Hj. eexists. split; [exact Hj|].
  destruct (join_known_result a b _ Ka Kb Hj) as (Hr & Hw & Hk & He).
  split; [exact Hr|]. split; [exact Hw|]. split; [exact Hk|].
  intros d Hd. destruct (He d Hd) as (E1 & E2 & E3). rewrite E1, E2, E3.
  destruct Wa as [Wa1 Wa2], Wb as [Wb1 Wb2].
  destruct Ma as (Ma1 & Ma2 & Ma3), Mb as (Mb1 & Mb2 & Mb3).
  unfold Info.getRank, Info.getContiguity, Info.getDivisibility,
    Info.getConstancy in *.
  split; [split; [|split]; apply gcd_checked_above_min; (assumption || lia)|].
  repeat split; first [apply gcd_divide_l | apply gcd_divide_r].
Qed.

(** Two records of rank 2. *)
Lemma join_lower_bound_witness :
  exists r,
    join sample_lhs sample_rhs = Done r /\
    Info.getRank r = Info.getRank sample_lhs /\ well_formed r /\
    Info.known r = true /\
    forall d, (d < Info.getRank sample_lhs)%nat ->
      (gcd_checked (Info.getContiguity sample_lhs d) (Info.getContiguity sample_rhs d)
         = Some (Done (Info.getContiguity r d)) /\
       gcd_checked (Info.getDivisibility sample_lhs d) (Info.getDivisibility sample_rhs d)
         = Some (Done (Info.getDivisibility r d)) /\
       gcd_checked (Info.getConstancy sample_lhs d) (Info.getConstancy sample_rhs d)
         = Some (Done (Info.getConstancy r d))) /\
      (Info.getContiguity r d | Info.getContiguity sample_lhs d) /\
      (Info.getContiguity r d | Info.getContiguity sample_rhs d) /\
      (Info.getDivisibility r d | Info.getDivisibility sample_lhs d) /\
      (Info.getDivisibility r d | Info.getDivisibility sample_rhs d) /\
      (Info.getConstancy r d | Info.getConstancy sample_lhs d) /\
      (Info.getConstancy r d | Info.getConstancy sample_rhs d).
Proof.
  apply (join_lower_bound sample_lhs sample_rhs);
    try reflexivity; try (split; reflexivity);
    unfold entries_above_min; simpl; repeat split; repeat constructor;
    vm_compute; (reflexivity || discriminate).
Defined.

(** X6: on known records of one rank with non-negative entries [join]
    is associative: the order in which three records are merged does not
    matter. *)
Theorem join_assoc (a b c : AxisInfo)
    (Ka : Info.known a = true) (Kb : Info.known b = true)
    (Kc : Info.known c = true)
    (Hab : Info.getRank a = Info.getRank b)
    (Na : entries_nonneg a) (Nb : entries_nonneg b) (Nc : entries_nonneg c) :
  exec_bind (join a b) (fun ab => join ab c) =
  exec_bind (join b c) (fun bc => join a bc).
Proof.
  pose proof (join_known a b Ka Kb) as Hj1.
  pose proof (join_known b c Kb Kc) as Hj2.
  destruct (join_known_result a b _ Ka Kb Hj1) as (Hr1 & _ & Hk1 & He1).
  destruct (join_known_result b c _ Kb Kc Hj2) as (Hr2 & _ & Hk2 & He2).
  rewrite Hj1, Hj2. cbn [exec_bind].
  rewrite (join_known _ c Hk1 Kc), (join_known a _ Ka Hk2).
  rewrite Hr1. cbn [constantValue].
  rewrite (join_constantValue_assoc (constantValue a) (constantValue b)
             (constantValue c)).
  destruct Na as (Na1 & Na2 & Na3), Nb as (Nb1 & Nb2 & Nb3),
    Nc as (Nc1 & Nc2 & Nc3).
  f_equal. f_equal; apply for_each_dim_ext; intros d Hd;
    destruct (He1 d Hd) as (E1 & E2 & E3);
    destruct (He2 d ltac:(lia)) as (F1 & F2 & F3);
    rewrite ?E1, ?E2, ?E3, ?F1, ?F2, ?F3;
    apply gcd_assoc_nonneg; now apply nth_nonneg.
Qed.

(** Three records of rank 2. *)
Lemma join_assoc_witness :
  exec_bind (join sample_lhs sample_rhs) (fun ab => join ab sample_third) =
  exec_bind (join sample_rhs sample_third) (fun bc => join sample_lhs bc).
Proof.
  apply (join_assoc sample_lhs sample_rhs sample_third);
    try reflexivity;
    unfold entries_nonneg; simpl; repeat split; repeat constructor;
    vm_compute; discriminate.
Defined.

(** A well-formed record is determined by its entries. *)
Lemma AxisInfo_ext r n f g h cv :
  well_formed r -> n = Info.getRank r ->
  (forall d, (d < n)%nat -> f d = Info.getContiguity r d) ->
  (forall d, (d < n)%nat -> g d = Info.getDivisibility r d) ->
  (forall d, (d < n)%nat -> h d = Info.getConstancy r d) ->
  cv = constantValue r ->
  mkAxisInfo (for_each_dim n f) (for_each_dim n g) (for_each_dim n h) cv = r.
Proof.
  intros [Hd Hc] -> Hf Hg Hh ->. destruct r as [rc rd rk rv].
  unfold Info.getRank, Info.getContiguity, Info.getDivisibility,
    Info.getConstancy in *. simpl in *.
  f_equal.
  - etransitivity; [|apply for_each_dim_id]. now apply for_each_dim_ext.
  - etransitivity; [|apply for_each_dim_id]. rewrite Hd.
    now apply for_each_dim_ext.
  - etransitivity; [|apply for_each_dim_id]. rewrite Hc.
    now apply for_each_dim_ext.
Qed.

(** X7: joining again with either operand changes nothing: on known
    records of one rank with non-negative entries, the join of [a] and
    [b], joined once more with [b] or with [a], is itself. *)
Theorem join_absorbs (a b r : AxisInfo)
    (Ka : Info.known a = true) (Kb : Info.known b = true)
    (Hab : Info.getRank a = Info.getRank b)
    (Na : entries_nonneg a) (Nb : entries_nonneg b)
    (Hj : join a b = Done r) :
  join r b = Done r /\ join r a = Done r.
Proof.
  destruct (join_known_result a b r Ka Kb Hj) as (Hr & Hw & Hk & He).
  rewrite (join_known r b Hk Kb), (join_known r a Hk Ka).
  pose proof Hj as Hj'. rewrite join_known in Hj' by assumption.
  injection Hj' as Hrec.
  assert (Hcv : constantValue r =
                if has_value (constantValue a) && has_value (constantValue b)
                   && optional_eqb (constantValue a) (constantValue b)
                then constantValue a else None) by (now rewrite <- Hrec).
  destruct (join_constantValue_absorb (constantValue a) (constantValue b))
    as [Hb' Ha'].
  destruct Na as (Na1 & Na2 & Na3), Nb as (Nb1 & Nb2 & Nb3).
  split; f_equal; apply AxisInfo_ext; try assumption; try reflexivity;
    try (intros d Hd; rewrite Hr in Hd;
         destruct (He d Hd) as (E1 & E2 & E3); rewrite ?E1, ?E2, ?E3;
         first [apply gcd_absorb_r | apply gcd_absorb_l]; now apply nth_nonneg).
  - rewrite Hcv. exact Hb'.
  - rewrite Hcv. exact Ha'.
Qed.

(** Two records of rank 2 and their join. *)
Lemma join_absorbs_witness :
  join (mkAxisInfo [1; 1] [4; 4] [1; 8] None) sample_rhs =
    Done (mkAxisInfo [1; 1] [4; 4] [1; 8] None) /\
  join (mkAxisInfo [1; 1] [4; 4] [1; 8] None) sample_lhs =
    Done (mkAxisInfo [1; 1] [4; 4] [1; 8] None).
Proof.
  apply (join_absorbs sample_lhs sample_rhs);
    try reflexivity;
    unfold entries_nonneg; simpl; repeat split; repeat constructor;
    vm_compute; discriminate.
Defined.

(** X8: [join] keeps the data-model invariant: from two known,
    well-formed records of one rank whose entries are all at least 1 it
    returns a record whose entries are all at least 1. *)
Theorem join_preserves_entries_ge_1 (a b r : AxisInfo)
    (Ka : Info.known a = true) (Kb : Info.known b = true)
    (Hrank : Info.getRank a = Info.getRank b)
    (Wa : well_formed a) (Wb : well_formed b)
    (Ga : entries_ge_1 a) (Gb : entries_ge_1 b)
    (Hj : join a b = Done r) :
  entries_ge_1 r.
Proof.
  destruct (join_known_result a b r Ka Kb Hj) as (Hr & [Hw1 Hw2] & _ & He).
  destruct Wa as [Wa1 Wa2], Wb as [Wb1 Wb2].
  destruct Ga as (A1 & A2 & A3), Gb as (B1 & B2 & B3).
  unfold entries_ge_1, Info.getRank, Info.getContiguity, Info.getDivisibility,
    Info.getConstancy in *.
  repeat split; apply List.Forall_forall; intros x Hx;
    apply (In_nth _ _ 0) in Hx as (d & Hd & <-);
    destruct (He d ltac:(lia)) as (E1 & E2 & E3); rewrite ?E1, ?E2, ?E3;
    apply gcd_pos; apply nth_ge_1; (assumption || lia).
Qed.

(** Two records of rank 2 whose entries are all at least 1. *)
Lemma join_preserves_entries_ge_1_witness :
  entries_ge_1 (mkAxisInfo [1; 1] [4; 4] [1; 8] None).
Proof.
  apply (join_preserves_entries_ge_1 sample_lhs sample_rhs);
    try reflexivity;
    unfold well_formed, entries_ge_1; simpl; repeat split; repeat constructor;
    vm_compute; discriminate.
Defined.

(** * The pessimistic state *)

Lemma repeat_Forall_eq (x : Z) n : Forall (fun y => y = x) (repeat x n).
Proof. induction n; simpl; constructor; auto. Qed.

(** X9: the pessimistic state of any value is a well-formed record
    without constant value whose contiguity and constancy are 1 on every
    axis and whose divisibility is the same on every axis; it is the
    unknown record, or its rank is the rank of the tensor type of the
    value (1 when the value is not a tensor). *)
Theorem pessimistic_state_invariant (value : Value) :
  let state := getPessimisticValueState value in
  let rank :=
    match getType value with
    | RankedTensorType shape _ => length shape
    | ScalarType => 1%nat
    end in
  well_formed state /\
  constantValue state = None /\
  Forall (fun x => x = 1) (contiguity state) /\
  Forall (fun x => x = 1) (constancy state) /\
  (exists h, Forall (fun x => x = h) (divisibility state)) /\
  (state = AxisInfo_default \/ Info.getRank state = rank).
Proof.
  unfold getPessimisticValueState.
  set (rank := match getType value with
               | RankedTensorType shape _ => length shape
               | ScalarType => 1%nat
               end).
  assert (H : forall h,
             let state := mkAxisInfo (DimVectorT rank 1) (DimVectorT rank h)
                                     (DimVectorT rank 1) None in
             well_formed state /\ constantValue state = None /\
             Forall (fun x => x = 1) (contiguity state) /\
             Forall (fun x => x = 1) (constancy state) /\
             (exists h, Forall (fun x => x = h) (divisibility state)) /\
             (state = AxisInfo_default \/ Info.getRank state = rank)).
  { intros h. unfold well_formed, Info.getRank, DimVectorT. simpl.
    rewrite !repeat_length.
    split; [split; reflexivity|]. split; [reflexivity|].
    split; [apply repeat_Forall_eq|]. split; [apply repeat_Forall_eq|].
    split; [exists h; apply repeat_Forall_eq|right; reflexivity]. }
  assert (H0 : let state := AxisInfo_default in
               well_formed state /\ constantValue state = None /\
               Forall (fun x => x = 1) (contiguity state) /\
               Forall (fun x => x = 1) (constancy state) /\
               (exists h, Forall (fun x => x = h) (divisibility state)) /\
               (state = AxisInfo_default \/ Info.getRank state = rank)).
  { simpl. split; [split; reflexivity|]. split; [reflexivity|].
    split; [constructor|]. split; [constructor|].
    split; [exists 1; constructor|left; reflexivity]. }
  destruct (asBlockArgument value) as [ba|]; [|apply H].
  destruct (isEntryBlock ba); [|apply H].
  destruct (getParentOp ba) as [attrs|attrs|]; [| |apply H0];
    destruct (attrs (getArgNumber ba)); apply H.
Qed.

(** X10: an entry-block argument of a function that declares the
    divisibility hint [h] starts with divisibility [h] narrowed to [int]
    on every axis: the hint itself when [0 <= h < 2^31], the negative
    number [h - 2^32] when [2^31 <= h < 2^32]. *)
Theorem pessimistic_state_hint (value : Value) (blockArg : BlockArgument)
    (attrs : nat -> option Z) (h : Z)
    (Harg : asBlockArgument value = Some blockArg)
    (Hentry : isEntryBlock blockArg = true)
    (Hparent : getParentOp blockArg = FuncOp attrs \/
               getParentOp blockArg = LLVMFuncOp attrs)
    (Hattr : attrs (getArgNumber blockArg) = Some h) :
  let rank :=
    match getType value with
    | RankedTensorType shape _ => length shape
    | ScalarType => 1%nat
    end in
  getPessimisticValueState value =
    mkAxisInfo (repeat 1 rank) (repeat (Int32.of_Z h) rank) (repeat 1 rank) None /\
  (0 <= h < 2 ^ 31 -> Int32.of_Z h = h) /\
  (2 ^ 31 <= h < 2 ^ 32 -> Int32.of_Z h = h - 2 ^ 32 /\ Int32.of_Z h < 0).
Proof.
  split; [|split].
  - unfold getPessimisticValueState. rewrite Harg, Hentry.
    destruct Hparent as [-> | ->]; now rewrite Hattr.
  - intros Hh. unfold Int32.of_Z. rewrite Z.mod_small by lia. lia.
  - intros Hh. unfold Int32.of_Z.
    replace (h + 2 ^ 31) with (h - 2 ^ 31 + 1 * 2 ^ 32) by lia.
    rewrite Z.mod_add by lia. rewrite Z.mod_small by lia. lia.
Qed.

(** A scalar argument declared divisible by 2^30. *)
Lemma pessimistic_state_hint_witness :
  getPessimisticValueState hinted_argument =
    mkAxisInfo [1] [Int32.of_Z 1073741824] [1] None /\
  (0 <= 1073741824 < 2 ^ 31 -> Int32.of_Z 1073741824 = 1073741824) /\
  (2 ^ 31 <= 1073741824 < 2 ^ 32 ->
   Int32.of_Z 1073741824 = 1073741824 - 2 ^ 32 /\ Int32.of_Z 1073741824 < 0).
Proof.
  apply (pessimistic_state_hint hinted_argument
           (mkBlockArgument 0 true (FuncOp (fun _ => Some 1073741824)))
           (fun _ => Some 1073741824) 1073741824);
    try reflexivity.
  left; reflexivity.
Defined.

(** * Further properties of the binary transfer functions *)

(** X11: on operands with non-negative entries, the add and the multiply
    transfer functions are symmetric in their operands, rule by rule,
    and so are the three per-axis rules of sub. *)
Theorem add_mul_symmetric (op : Operation) (lhs rhs : AxisInfo) (d : nat)
    (Nl : entries_nonneg lhs) (Nr : entries_nonneg rhs) :
  (AddOpAxisInfoVisitor.getContiguity op lhs rhs d =
     AddOpAxisInfoVisitor.getContiguity op rhs lhs d /\
   AddOpAxisInfoVisitor.getDivisibility op lhs rhs d =
     AddOpAxisInfoVisitor.getDivisibility op rhs lhs d /\
   AddOpAxisInfoVisitor.getConstancy op lhs rhs d =
     AddOpAxisInfoVisitor.getConstancy op rhs lhs d /\
   AddOpAxisInfoVisitor.getConstantValue op lhs rhs =
     AddOpAxisInfoVisitor.getConstantValue op rhs lhs) /\
  (MulIOpAxisInfoVisitor.getContiguity op lhs rhs d =
     MulIOpAxisInfoVisitor.getContiguity op rhs lhs d /\
   MulIOpAxisInfoVisitor.getDivisibility op lhs rhs d =
     MulIOpAxisInfoVisitor.getDivisibility op rhs lhs d /\
   MulIOpAxisInfoVisitor.getConstancy op lhs rhs d =
     MulIOpAxisInfoVisitor.getConstancy op rhs lhs d /\
   MulIOpAxisInfoVisitor.getConstantValue op lhs rhs =
     MulIOpAxisInfoVisitor.getConstantValue op rhs lhs) /\
  (SubOpAxisInfoVisitor.getContiguity op lhs rhs d =
     SubOpAxisInfoVisitor.getContiguity op rhs lhs d /\
   SubOpAxisInfoVisitor.getDivisibility op lhs rhs d =
     SubOpAxisInfoVisitor.getDivisibility op rhs lhs d /\
   SubOpAxisInfoVisitor.getConstancy op lhs rhs d =
     SubOpAxisInfoVisitor.getConstancy op rhs lhs d).
Proof.
  destruct Nl as (L1 & L2 & L3), Nr as (R1 & R2 & R3).
  pose proof (nth_nonneg _ d L1). pose proof (nth_nonneg _ d L2).
  pose proof (nth_nonneg _ d L3). pose proof (nth_nonneg _ d R1).
  pose proof (nth_nonneg _ d R2). pose proof (nth_nonneg _ d R3).
  assert (Hc : forall x y, 0 <= x -> 0 <= y -> gcd x y = gcd y x)
    by apply gcd_comm_nonneg.
  unfold AddOpAxisInfoVisitor.getContiguity, AddOpAxisInfoVisitor.getDivisibility,
    AddOpAxisInfoVisitor.getConstancy, AddOpAxisInfoVisitor.getConstantValue,
    SubOpAxisInfoVisitor.getContiguity, SubOpAxisInfoVisitor.getDivisibility,
    SubOpAxisInfoVisitor.getConstancy,
    MulIOpAxisInfoVisitor.getContiguity, MulIOpAxisInfoVisitor.getDivisibility,
    MulIOpAxisInfoVisitor.getConstancy, MulIOpAxisInfoVisitor.getConstantValue,
    Info.getContiguity, Info.getDivisibility, Info.getConstancy, Int64.add, Int64.mul.
  repeat split; try (now apply Hc).
  - rewrite Z.max_comm. f_equal; now apply Hc.
  - destruct (constantValue lhs), (constantValue rhs); try reflexivity.
    now rewrite Z.add_comm.
  - apply Z.max_comm.
  - now rewrite Z.mul_comm.
  - destruct (constantValue lhs), (constantValue rhs); try reflexivity.
    now rewrite Z.mul_comm.
  - rewrite Z.max_comm. f_equal; now apply Hc.
Qed.

(** Two records of rank 2. *)
Lemma add_mul_symmetric_witness :
  AddOpAxisInfoVisitor.getContiguity example_add sample_lhs sample_third 1 =
  AddOpAxisInfoVisitor.getContiguity example_add sample_third sample_lhs 1.
Proof.
  refine (proj1 (proj1 (add_mul_symmetric example_add sample_lhs sample_third 1 _ _)));
    unfold entries_nonneg; simpl; repeat split; repeat constructor;
    vm_compute; discriminate.
Defined.

(** X12: adding (or subtracting) an operand whose constancy along [d] is
    a multiple of the contiguity of the other operand keeps that
    contiguity: the result is at least as contiguous as the lhs. *)
Theorem add_keeps_contiguity (op : Operation) (lhs rhs : AxisInfo) (d : nat)
    (Hcont : 0 <= Info.getContiguity lhs d)
    (Hconst : 0 <= Info.getConstancy rhs d)
    (Hdiv : (Info.getContiguity lhs d | Info.getConstancy rhs d)) :
  AddOpAxisInfoVisitor.getContiguity op lhs rhs d =
    Z.max (gcd (Info.getConstancy lhs d) (Info.getContiguity rhs d))
          (Info.getContiguity lhs d) /\
  Info.getContiguity lhs d <= AddOpAxisInfoVisitor.getContiguity op lhs rhs d /\
  Info.getContiguity lhs d <= SubOpAxisInfoVisitor.getContiguity op lhs rhs d.
Proof.
  assert (E : gcd (Info.getContiguity lhs d) (Info.getConstancy rhs d)
              = Info.getContiguity lhs d).
  { rewrite gcd_nonneg_Zgcd by assumption.
    apply Z.divide_gcd_iff; assumption. }
  unfold AddOpAxisInfoVisitor.getContiguity, SubOpAxisInfoVisitor.getContiguity.
  rewrite E. repeat split; lia.
Qed.

(** A run of 8 consecutive integers plus a value repeated 8 times. *)
Lemma add_keeps_contiguity_witness :
  AddOpAxisInfoVisitor.getContiguity example_add contiguous8 constant8 0 =
    Z.max (gcd (Info.getConstancy contiguous8 0) (Info.getContiguity constant8 0))
          (Info.getContiguity contiguous8 0) /\
  Info.getContiguity contiguous8 0 <=
    AddOpAxisInfoVisitor.getContiguity example_add contiguous8 constant8 0 /\
  Info.getContiguity contiguous8 0 <=
    SubOpAxisInfoVisitor.getContiguity example_add contiguous8 constant8 0.
Proof.
  apply (add_keeps_contiguity example_add contiguous8 constant8 0).
  - vm_compute; discriminate.
  - vm_compute; discriminate.
  - exists 1. reflexivity.
Defined.

(** X13: on operands with positive divisibilities the divide transfer
    function always returns divisibility 1: the two divisibilities
    divided by their gcd are coprime. *)
Theorem div_divisibility_is_1 (op : Operation) (lhs rhs : AxisInfo) (d : nat)
    (Hl : 1 <= Info.getDivisibility lhs d)
    (Hr : 1 <= Info.getDivisibility rhs d) :
  DivOpAxisInfoVisitor.getDivisibility op lhs rhs d = Done 1.
Proof.
  unfold DivOpAxisInfoVisitor.getDivisibility, Int64Div.sdiv.
  set (l := Info.getDivisibility lhs d) in *.
  set (r := Info.getDivisibility rhs d) in *.
  pose proof (gcd_pos l r Hl Hr) as Hpos.
  pose proof (gcd_le_l l r Hl ltac:(lia)) as Hle.
  assert (Hle' : gcd l r <= r).
  { rewrite gcd_comm_nonneg by lia. apply gcd_le_l; lia. }
  destruct (Z.eqb_spec (gcd l r) 0); [lia|].
  destruct (Z.eqb_spec (gcd l r) (-1)); [lia|].
  rewrite !andb_false_r. simpl. f_equal.
  rewrite !Z.quot_div_nonneg by lia.
  assert (Hg : gcd l r = Z.gcd l r) by (apply gcd_nonneg_Zgcd; lia).
  rewrite Hg in *.
  rewrite gcd_nonneg_Zgcd by (apply Z.div_pos; lia).
  apply Z.gcd_div_gcd; [lia|reflexivity].
Qed.

(** Divisibilities 8 and 8. *)
Lemma div_divisibility_is_1_witness :
  DivOpAxisInfoVisitor.getDivisibility example_div contiguous8 constant8 0 = Done 1.
Proof.
  apply (div_divisibility_is_1 example_div contiguous8 constant8 0);
    vm_compute; discriminate.
Defined.

Lemma gcd_eq_0 a b : gcd a b = 0 <-> a = 0 /\ b = 0.
Proof.
  rewrite <- (Z.abs_0_iff (gcd a b)), gcd_abs_Zgcd. split.
  - intros H. split; [now apply Z.gcd_eq_0_l in H|now apply Z.gcd_eq_0_r in H].
  - intros [-> ->]. reflexivity.
Qed.

(** X14: the divide transfer function divides by zero while computing
    the divisibility exactly when both operands have divisibility 0
    along the axis. *)
Theorem div_divisibility_zero (op : Operation) (lhs rhs : AxisInfo) (d : nat) :
  DivOpAxisInfoVisitor.getDivisibility op lhs rhs d = Crash DivisionByZero <->
  Info.getDivisibility lhs d = 0 /\ Info.getDivisibility rhs d = 0.
Proof.
  unfold DivOpAxisInfoVisitor.getDivisibility, Int64Div.sdiv.
  set (l := Info.getDivisibility lhs d). set (r := Info.getDivisibility rhs d).
  rewrite <- gcd_eq_0.
  destruct (Z.eqb_spec (gcd l r) 0) as [E|E]; simpl.
  - split; [intros _; exact E|reflexivity].
  - split; [|contradiction].
    destruct (_ && _); simpl; [discriminate|].
    destruct (_ && _); simpl; discriminate.
Qed.

(** X15: for constant operands with a non-zero divisor (and a quotient
    that fits), the constants folded by the divide and the remainder
    transfer functions compose: dividend = divisor * quotient +
    remainder, with a remainder smaller in magnitude than the divisor
    and of the sign of the dividend. *)
Theorem div_rem_constants_compose (op : Operation) (lhs rhs : AxisInfo) (l r : Z)
    (Hl : constantValue lhs = Some l) (Hr : constantValue rhs = Some r)
    (Hz : r <> 0) (Ho : ~ (l = Int64.min_signed /\ r = -1)) :
  exists q m,
    DivOpAxisInfoVisitor.getConstantValue op lhs rhs = Done (Some q) /\
    RemOpAxisInfoVisitor.getConstantValue op lhs rhs = Done (Some m) /\
    l = r * q + m /\ Z.abs m < Z.abs r /\ 0 <= m * l.
Proof.
  destruct (div_rem_constant_value op lhs rhs l r Hl Hr Hz Ho) as [Hq Hm].
  exists (Z.quot l r), (Z.rem l r). repeat split; try assumption.
  - apply Z.quot_rem'.
  - now apply Z.rem_bound_abs.
  - pose proof (Z.rem_sign_mul l r Hz). lia.
Qed.

(** -7 divided by 2. *)
Lemma div_rem_constants_compose_witness :
  exists q m,
    DivOpAxisInfoVisitor.getConstantValue example_div
      (mkAxisInfo [1] [1] [8] (Some (-7))) (mkAxisInfo [1] [2] [8] (Some 2))
      = Done (Some q) /\
    RemOpAxisInfoVisitor.getConstantValue example_div
      (mkAxisInfo [1] [1] [8] (Some (-7))) (mkAxisInfo [1] [2] [8] (Some 2))
      = Done (Some m) /\
    -7 = 2 * q + m /\ Z.abs m < Z.abs 2 /\ 0 <= m * -7.
Proof.
  apply (div_rem_constants_compose example_div
           (mkAxisInfo [1] [1] [8] (Some (-7))) (mkAxisInfo [1] [2] [8] (Some 2))
           (-7) 2); try reflexivity; try discriminate.
  intros [H _]. discriminate.
Defined.

(** X16: the contiguity returned by the remainder transfer function is
    at least 1 and divides the contiguity of the lhs, whatever the
    operands and the result type. *)
Theorem rem_contiguity_divides (op : Operation) (lhs rhs : AxisInfo) (d : nat) :
  1 <= RemOpAxisInfoVisitor.getContiguity op lhs rhs d /\
  (RemOpAxisInfoVisitor.getContiguity op lhs rhs d | Info.getContiguity lhs d).
Proof.
  unfold RemOpAxisInfoVisitor.getContiguity, BinaryOpVisitorImpl.getContiguity.
  destruct (resultType op); [|split; [lia|apply Z.divide_1_l]].
  destruct (_ && _); [|split; [lia|apply Z.divide_1_l]].
  split; [lia|].
  destruct (Z.max_spec 1 (gcd (Info.getContiguity lhs d)
                              (gcd (Info.getDivisibility lhs d)
                                   (Info.getDivisibility rhs d))))
    as [[_ ->]|[_ ->]].
  - apply gcd_divide_l.
  - apply Z.divide_1_l.
Qed.

(** X17: along an axis where all entries of both operands are at least
    1, every per-axis rule of add, sub, divide and remainder returns at
    least 1 - divide's divisibility without dividing by zero - and so do
    the contiguity and constancy rules of multiply; multiply's
    divisibility does so as soon as the product fits [int64_t]. *)
Theorem binary_rules_preserve_ge_1 (op : Operation) (lhs rhs : AxisInfo) (d : nat)
    (HcL : 1 <= Info.getContiguity lhs d) (HcR : 1 <= Info.getContiguity rhs d)
    (HdL : 1 <= Info.getDivisibility lhs d) (HdR : 1 <= Info.getDivisibility rhs d)
    (HkL : 1 <= Info.getConstancy lhs d) (HkR : 1 <= Info.getConstancy rhs d) :
  (1 <= AddOpAxisInfoVisitor.getContiguity op lhs rhs d /\
   1 <= AddOpAxisInfoVisitor.getDivisibility op lhs rhs d /\
   1 <= AddOpAxisInfoVisitor.getConstancy op lhs rhs d) /\
  (1 <= SubOpAxisInfoVisitor.getContiguity op lhs rhs d /\
   1 <= SubOpAxisInfoVisitor.getDivisibility op lhs rhs d /\
   1 <= SubOpAxisInfoVisitor.getConstancy op lhs rhs d) /\
  (1 <= MulIOpAxisInfoVisitor.getContiguity op lhs rhs d /\
   1 <= MulIOpAxisInfoVisitor.getConstancy op lhs rhs d /\
   (Int64.in_range (Info.getDivisibility lhs d * Info.getDivisibility rhs d) ->
    1 <= MulIOpAxisInfoVisitor.getDivisibility op lhs rhs d)) /\
  (1 <= DivOpAxisInfoVisitor.getContiguity op lhs rhs d /\
   1 <= DivOpAxisInfoVisitor.getConstancy op lhs rhs d /\
   DivOpAxisInfoVisitor.getDivisibility op lhs rhs d = Done 1) /\
  (1 <= RemOpAxisInfoVisitor.getContiguity op lhs rhs d /\
   1 <= RemOpAxisInfoVisitor.getDivisibility op lhs rhs d /\
   1 <= RemOpAxisInfoVisitor.getConstancy op lhs rhs d).
Proof.
  assert (Hg : forall x y, 1 <= x -> 1 <= y -> 1 <= gcd x y) by apply gcd_pos.
  assert (Hdiv : DivOpAxisInfoVisitor.getDivisibility op lhs rhs d = Done 1).
  { unfold DivOpAxisInfoVisitor.getDivisibility, Int64Div.sdiv.
    set (l := Info.getDivisibility lhs d) in *.
    set (r := Info.getDivisibility rhs d) in *.
    pose proof (Hg l r HdL HdR) as Hpos.
    pose proof (gcd_le_l l r HdL ltac:(lia)) as Hle.
    assert (Hle' : gcd l r <= r).
    { rewrite gcd_comm_nonneg by lia. apply gcd_le_l; lia. }
    destruct (Z.eqb_spec (gcd l r) 0); [lia|].
    destruct (Z.eqb_spec (gcd l r) (-1)); [lia|].
    rewrite !andb_false_r. simpl. f_equal.
    rewrite !Z.quot_div_nonneg by lia.
    assert (E : gcd l r = Z.gcd l r) by (apply gcd_nonneg_Zgcd; lia).
    rewrite E in *.
    rewrite gcd_nonneg_Zgcd by (apply Z.div_pos; lia).
    apply Z.gcd_div_gcd; [lia|reflexivity]. }
  split; [|split; [|split; [|split]]].
  - unfold AddOpAxisInfoVisitor.getContiguity.
    pose proof (Hg _ _ HkL HcR). repeat split; try (now apply Hg). lia.
  - unfold SubOpAxisInfoVisitor.getContiguity.
    pose proof (Hg _ _ HkL HcR). repeat split; try (now apply Hg). lia.
  - split; [|split].
    + unfold MulIOpAxisInfoVisitor.getContiguity.
      destruct (_ && _), (_ && _); lia.
    + now apply Hg.
    + intros Hin. unfold MulIOpAxisInfoVisitor.getDivisibility, Int64.mul.
      rewrite Int64_wrap_small by assumption. nia.
  - split; [|split; [|exact Hdiv]].
    + unfold DivOpAxisInfoVisitor.getContiguity. destruct (_ && _); lia.
    + unfold DivOpAxisInfoVisitor.getConstancy, BinaryOpVisitorImpl.getConstancy.
      destruct (resultType op); [|lia].
      pose proof (Hg _ _ HkL HkR). destruct (_ && _); lia.
  - split; [|split; now apply Hg].
    unfold RemOpAxisInfoVisitor.getContiguity, BinaryOpVisitorImpl.getContiguity.
    destruct (resultType op); [|lia]. destruct (_ && _); lia.
Qed.

(** A run of 8 consecutive integers and a value repeated 8 times. *)
Lemma binary_rules_preserve_ge_1_witness :
  1 <= AddOpAxisInfoVisitor.getContiguity example_div contiguous8 constant8 0 /\
  1 <= RemOpAxisInfoVisitor.getContiguity example_div contiguous8 constant8 0.
Proof.
  pose proof (binary_rules_preserve_ge_1 example_div contiguous8 constant8 0) as H.
  destruct H as ((Ha & _) & _ & _ & _ & (Hr & _));
    try (vm_compute; discriminate).
  split; [exact Ha|exact Hr].
Defined.

(** * Shape-changing operations *)

Lemma for_each_dim_const rank (c : Z) :
  for_each_dim rank (fun _ => c) = repeat c rank.
Proof.
  unfold for_each_dim. generalize 0%nat.
  induction rank as [|n IH]; intros s; simpl; [reflexivity|].
  now rewrite IH.
Qed.

Lemma operand_0 operands info :
  nth_error operands 0 = Some info -> operand operands 0 = Done info.
Proof. intros H. unfold operand. now rewrite H. Qed.

(** X18: a splat onto a ranked tensor returns a well-formed record of the
    rank of the result whose contiguity is 1 on every axis, whose
    divisibility on every axis is the divisibility of the scalar operand,
    whose constancy vector is the result shape itself, and whose constant
    value is the operand's. *)
Theorem splat_result (op : Operation) (operands : list AxisInfo)
    (opInfo : AxisInfo) (retShape : list Z) (layout : Encoding)
    (Hty : resultType op = RankedTensorType retShape layout)
    (Hop : nth_error operands 0 = Some opInfo) :
  exists r,
    SplatOpAxisInfoVisitor.getAxisInfo op operands = Done r /\
    well_formed r /\
    Info.getRank r = length retShape /\
    contiguity r = repeat 1 (length retShape) /\
    divisibility r = repeat (Info.getDivisibility opInfo 0) (length retShape) /\
    constancy r = retShape /\
    constantValue r = constantValue opInfo.
Proof.
  unfold SplatOpAxisInfoVisitor.getAxisInfo.
  rewrite Hty, (operand_0 _ _ Hop). cbn [exec_bind].
  eexists. split; [reflexivity|].
  unfold well_formed, Info.getRank. cbn [contiguity divisibility constancy constantValue].
  rewrite !for_each_dim_const, for_each_dim_id, !repeat_length.
  repeat split; reflexivity.
Qed.

(** A multiple of 4 splatted onto 8 elements. *)
Lemma splat_result_witness :
  exists r,
    SplatOpAxisInfoVisitor.getAxisInfo example_splat [four_everywhere] = Done r /\
    well_formed r /\
    Info.getRank r = length [8] /\
    contiguity r = repeat 1 (length [8]) /\
    divisibility r = repeat (Info.getDivisibility four_everywhere 0) (length [8]) /\
    constancy r = [8] /\
    constantValue r = constantValue four_everywhere.
Proof.
  apply (splat_result example_splat [four_everywhere] four_everywhere [8]
           blocked_layout); reflexivity.
Defined.

Lemma insert_at_length axis v :
  length (ExpandDimsOpAxisInfoVisitor.insert_at axis v) = S (length v).
Proof.
  unfold ExpandDimsOpAxisInfoVisitor.insert_at.
  rewrite length_app, length_firstn. simpl. rewrite length_skipn. lia.
Qed.

Lemma insert_at_nth_before axis v d :
  (axis <= length v)%nat -> (d < axis)%nat ->
  nth d (ExpandDimsOpAxisInfoVisitor.insert_at axis v) 0 = nth d v 0.
Proof.
  intros Ha Hd. unfold ExpandDimsOpAxisInfoVisitor.insert_at.
  rewrite app_nth1 by (rewrite length_firstn; lia).
  rewrite <- (firstn_skipn axis v) at 2.
  now rewrite app_nth1 by (rewrite length_firstn; lia).
Qed.

Lemma insert_at_nth_axis axis v :
  (axis <= length v)%nat ->
  nth axis (ExpandDimsOpAxisInfoVisitor.insert_at axis v) 0 = 1.
Proof.
  intros Ha. unfold ExpandDimsOpAxisInfoVisitor.insert_at.
  rewrite app_nth2 by (rewrite length_firstn; lia).
  rewrite length_firstn. replace (axis - Nat.min axis (length v))%nat with 0%nat by lia.
  reflexivity.
Qed.

Lemma insert_at_nth_after axis v d :
  (axis <= d)%nat ->
  (axis <= length v)%nat ->
  nth (S d) (ExpandDimsOpAxisInfoVisitor.insert_at axis v) 0 = nth d v 0.
Proof.
  intros Hd Ha. unfold ExpandDimsOpAxisInfoVisitor.insert_at.
  rewrite app_nth2 by (rewrite length_firstn; lia).
  rewrite length_firstn.
  replace (S d - Nat.min axis (length v))%nat with (S (d - axis)) by lia.
  simpl. rewrite <- (firstn_skipn axis v) at 2.
  rewrite app_nth2 by (rewrite length_firstn; lia).
  rewrite length_firstn. f_equal. lia.
Qed.

Lemma insert_at_Forall (P : Z -> Prop) axis v :
  P 1 -> Forall P v -> Forall P (ExpandDimsOpAxisInfoVisitor.insert_at axis v).
Proof.
  intros H1 Hv. unfold ExpandDimsOpAxisInfoVisitor.insert_at.
  rewrite <- (firstn_skipn axis v) in Hv.
  apply Forall_app in Hv as [Hf Hs].
  apply Forall_app. split; [assumption|]. now constructor.
Qed.

(** X19: expanding a well-formed record at an axis within its rank gives
    a well-formed record of rank one more, with the same constant value;
    the new axis has contiguity, divisibility and constancy 1, the axes
    before it are unchanged, the axes after it are shifted by one, and
    entries that were all at least 1 stay so. *)
Theorem expand_dims_result (axis : nat) (operands : list AxisInfo)
    (opInfo : AxisInfo)
    (Hop : nth_error operands 0 = Some opInfo)
    (Hw : well_formed opInfo)
    (Hax : (axis <= Info.getRank opInfo)%nat) :
  exists r,
    ExpandDimsOpAxisInfoVisitor.getAxisInfo axis operands = Done r /\
    Info.getRank r = S (Info.getRank opInfo) /\
    well_formed r /\
    constantValue r = constantValue opInfo /\
    (Info.getContiguity r axis = 1 /\ Info.getDivisibility r axis = 1 /\
     Info.getConstancy r axis = 1) /\
    (forall d, (d < axis)%nat ->
       Info.getContiguity r d = Info.getContiguity opInfo d /\
       Info.getDivisibility r d = Info.getDivisibility opInfo d /\
       Info.getConstancy r d = Info.getConstancy opInfo d) /\
    (forall d, (axis <= d)%nat ->
       Info.getContiguity r (S d) = Info.getContiguity opInfo d /\
       Info.getDivisibility r (S d) = Info.getDivisibility opInfo d /\
       Info.getConstancy r (S d) = Info.getConstancy opInfo d) /\
    (entries_ge_1 opInfo -> entries_ge_1 r).
Proof.
  unfold ExpandDimsOpAxisInfoVisitor.getAxisInfo.
  rewrite (operand_0 _ _ Hop). cbn [exec_bind].
  eexists. split; [reflexivity|].
  destruct Hw as [Hd Hc].
  unfold well_formed, Info.getRank, Info.getContiguity, Info.getDivisibility,
    Info.getConstancy, entries_ge_1 in *.
  cbn [contiguity divisibility constancy constantValue].
  rewrite !insert_at_length.
  split; [reflexivity|]. split; [split; congruence|]. split; [reflexivity|].
  split; [|split; [|split]].
  - repeat split; apply insert_at_nth_axis; lia.
  - intros d Hlt. repeat split; apply insert_at_nth_before; lia.
  - intros d Hle. repeat split; apply insert_at_nth_after; lia.
  - intros (H1 & H2 & H3). repeat split; apply insert_at_Forall; (lia || assumption).
Qed.

(** A record of rank 2 expanded at axis 1. *)
Lemma expand_dims_result_witness :
  exists r,
    ExpandDimsOpAxisInfoVisitor.getAxisInfo 1 [sample_lhs] = Done r /\
    Info.getRank r = S (Info.getRank sample_lhs) /\
    well_formed r /\
    constantValue r = constantValue sample_lhs /\
    (Info.getContiguity r 1 = 1 /\ Info.getDivisibility r 1 = 1 /\
     Info.getConstancy r 1 = 1) /\
    (forall d, (d < 1)%nat ->
       Info.getContiguity r d = Info.getContiguity sample_lhs d /\
       Info.getDivisibility r d = Info.getDivisibility sample_lhs d /\
       Info.getConstancy r d = Info.getConstancy sample_lhs d) /\
    (forall d, (1 <= d)%nat ->
       Info.getContiguity r (S d) = Info.getContiguity sample_lhs d /\
       Info.getDivisibility r (S d) = Info.getDivisibility sample_lhs d /\
       Info.getConstancy r (S d) = Info.getConstancy sample_lhs d) /\
    (entries_ge_1 sample_lhs -> entries_ge_1 r).
Proof.
  apply (expand_dims_result 1 [sample_lhs] sample_lhs).
  - reflexivity.
  - split; reflexivity.
  - unfold Info.getRank. simpl. lia.
Defined.

(** X20: a broadcast of a well-formed record of the rank of the result
    returns a well-formed record of that rank with the same divisibility
    vector and constant value; on an axis of source extent 1 the
    contiguity becomes 1 and the constancy the result extent, elsewhere
    both are unchanged; when no source extent is 1 the record is
    returned as it is. *)
Theorem broadcast_result (op : Operation) (operands : list AxisInfo)
    (opInfo : AxisInfo) (retShape opShape : list Z) (retLayout opLayout : Encoding)
    (Hret : resultType op = RankedTensorType retShape retLayout)
    (Hopty : operandType op = RankedTensorType opShape opLayout)
    (Hop : nth_error operands 0 = Some opInfo)
    (Hw : well_formed opInfo)
    (Hrank : Info.getRank opInfo = length retShape) :
  exists r,
    BroadcastOpAxisInfoVisitor.getAxisInfo op operands = Done r /\
    Info.getRank r = length retShape /\
    well_formed r /\
    divisibility r = divisibility opInfo /\
    constantValue r = constantValue opInfo /\
    (forall d, (d < length retShape)%nat ->
       (nth d opShape 0 = 1 ->
        Info.getContiguity r d = 1 /\ Info.getConstancy r d = nth d retShape 0) /\
       (nth d opShape 0 <> 1 ->
        Info.getContiguity r d = Info.getContiguity opInfo d /\
        Info.getConstancy r d = Info.getConstancy opInfo d)) /\
    ((forall d, (d < length retShape)%nat -> nth d opShape 0 <> 1) -> r = opInfo).
Proof.
  unfold BroadcastOpAxisInfoVisitor.getAxisInfo.
  rewrite Hret, Hopty, (operand_0 _ _ Hop). cbn [exec_bind].
  eexists. split; [reflexivity|].
  pose proof Hw as [Hd Hc].
  assert (Hdiv : for_each_dim (length retShape)
                   (fun d => Info.getDivisibility opInfo d) = divisibility opInfo).
  { rewrite <- Hrank, <- Hd. apply for_each_dim_id. }
  unfold well_formed, Info.getRank, Info.getContiguity, Info.getConstancy.
  cbn [contiguity divisibility constancy constantValue].
  rewrite Hdiv, !for_each_dim_length.
  split; [reflexivity|]. split; [split; [congruence|reflexivity]|].
  split; [reflexivity|]. split; [reflexivity|]. split.
  - intros d Hlt. rewrite !for_each_dim_nth by assumption.
    split; intros H1.
    + rewrite H1. simpl. split; reflexivity.
    + destruct (Z.eqb_spec (nth d opShape 0) 1); [contradiction|].
      split; reflexivity.
  - intros Hno. rewrite <- Hdiv. apply AxisInfo_ext; try assumption;
      try reflexivity; try congruence.
    + intros d Hlt. destruct (Z.eqb_spec (nth d opShape 0) 1); [|reflexivity].
      exfalso. now apply (Hno d).
    + intros d Hlt. destruct (Z.eqb_spec (nth d opShape 0) 1); [|reflexivity].
      exfalso. now apply (Hno d).
Qed.

(** A column of 4 multiples of 4 broadcast along a second axis of 8. *)
Lemma broadcast_result_witness :
  exists r,
    BroadcastOpAxisInfoVisitor.getAxisInfo example_broadcast [column_info] = Done r /\
    Info.getRank r = length [4; 8] /\
    well_formed r /\
    divisibility r = divisibility column_info /\
    constantValue r = constantValue column_info /\
    (forall d, (d < length [4; 8])%nat ->
       (nth d [4; 1] 0 = 1 ->
        Info.getContiguity r d = 1 /\ Info.getConstancy r d = nth d [4; 8] 0) /\
       (nth d [4; 1] 0 <> 1 ->
        Info.getContiguity r d = Info.getContiguity column_info d /\
        Info.getConstancy r d = Info.getConstancy column_info d)) /\
    ((forall d, (d < length [4; 8])%nat -> nth d [4; 1] 0 <> 1) -> r = column_info).
Proof.
  apply (broadcast_result example_broadcast [column_info] column_info
           [4; 8] [4; 1] layout2d layout2d); try reflexivity.
  split; reflexivity.
Defined.

(** * Compare and select *)

(** X21: when both operands of a compare on a ranked tensor carry a
    constant, the result carries the constant 1 or 0 according to the
    predicate evaluated on the two constants (no constant at all for a
    tensor of rank 0), its constancy along every axis is the constancy
    of the lhs, and its contiguity and divisibility are 1. *)
Theorem cmp_constants (predicate : CmpIPredicate.t) (op : Operation)
    (shape : list Z) (layout : Encoding) (lhs rhs : AxisInfo) (l r : Z)
    (Hty : resultType op = RankedTensorType shape layout)
    (Hl : constantValue lhs = Some l) (Hr : constantValue rhs = Some r) :
  exists result,
    CmpOpAxisInfoVisitor.getAxisInfo predicate op [lhs; rhs] = Done result /\
    Info.getRank result = length shape /\
    well_formed result /\
    constantValue result =
      (if (length shape =? 0)%nat then None
       else Some (if CmpOpAxisInfoVisitor.compare predicate l r then 1 else 0)) /\
    forall d, (d < length shape)%nat ->
      Info.getContiguity result d = 1 /\
      Info.getDivisibility result d = 1 /\
      Info.getConstancy result d = Info.getConstancy lhs d.
Proof.
  unfold CmpOpAxisInfoVisitor.getAxisInfo. rewrite Hty. simpl.
  eexists. split; [reflexivity|].
  unfold well_formed, Info.getRank, Info.getContiguity, Info.getDivisibility.
  cbn [contiguity divisibility constancy constantValue].
  rewrite !for_each_dim_length.
  split; [reflexivity|]. split; [split; reflexivity|]. split.
  - unfold CmpOpAxisInfoVisitor.loopConstantValue. rewrite Hl, Hr.
    now destruct (length shape).
  - intros d Hd. unfold Info.getConstancy at 1.
    cbn [contiguity divisibility constancy constantValue].
    rewrite !for_each_dim_nth by assumption.
    unfold CmpOpAxisInfoVisitor.constHint. rewrite Hl, Hr. simpl.
    repeat split.
Qed.

(** The constants 4 and 0 compared for "less than". *)
Lemma cmp_constants_witness :
  exists result,
    CmpOpAxisInfoVisitor.getAxisInfo CmpIPredicate.slt example_cmp8
      [four_everywhere; zero_everywhere] = Done result /\
    Info.getRank result = length [8] /\
    well_formed result /\
    constantValue result =
      (if (length [8] =? 0)%nat then None
       else Some (if CmpOpAxisInfoVisitor.compare CmpIPredicate.slt 4 0 then 1 else 0)) /\
    forall d, (d < length [8])%nat ->
      Info.getContiguity result d = 1 /\
      Info.getDivisibility result d = 1 /\
      Info.getConstancy result d = Info.getConstancy four_everywhere d.
Proof.
  apply (cmp_constants CmpIPredicate.slt example_cmp8 [8] blocked_layout
           four_everywhere zero_everywhere 4 0); reflexivity.
Defined.

Lemma to_unsigned_nonneg z :
  0 <= z -> Int64.in_range z -> Int64.to_unsigned z = z.
Proof.
  unfold Int64.in_range, Int64.max_signed, Int64.to_unsigned, Int64.modulus.
  intros H0 [_ H]. apply Z.mod_small. lia.
Qed.

Lemma to_unsigned_neg z :
  z < 0 -> Int64.in_range z -> Int64.to_unsigned z = z + 2 ^ 64.
Proof.
  unfold Int64.in_range, Int64.min_signed, Int64.to_unsigned, Int64.modulus.
  intros H0 [H _].
  replace z with (z + 2 ^ 64 + (-1) * 2 ^ 64) at 1 by lia.
  rewrite Z.mod_add by lia. apply Z.mod_small. lia.
Qed.

(** X22: on [int64_t] operands, every predicate of [compare] is the
    negation of its opposite; the unsigned predicates agree with the
    signed ones when both operands have the same sign, and order every
    negative operand above every non-negative one. *)
Theorem compare_predicates (l r : Z)
    (Hl : Int64.in_range l) (Hr : Int64.in_range r) :
  (CmpOpAxisInfoVisitor.compare CmpIPredicate.ne l r =
     negb (CmpOpAxisInfoVisitor.compare CmpIPredicate.eq l r) /\
   CmpOpAxisInfoVisitor.compare CmpIPredicate.sge l r =
     negb (CmpOpAxisInfoVisitor.compare CmpIPredicate.slt l r) /\
   CmpOpAxisInfoVisitor.compare CmpIPredicate.sgt l r =
     negb (CmpOpAxisInfoVisitor.compare CmpIPredicate.sle l r) /\
   CmpOpAxisInfoVisitor.compare CmpIPredicate.uge l r =
     negb (CmpOpAxisInfoVisitor.compare CmpIPredicate.ult l r) /\
   CmpOpAxisInfoVisitor.compare CmpIPredicate.ugt l r =
     negb (CmpOpAxisInfoVisitor.compare CmpIPredicate.ule l r)) /\
  ((0 <= l /\ 0 <= r) \/ (l < 0 /\ r < 0) ->
   CmpOpAxisInfoVisitor.compare CmpIPredicate.ult l r =
     CmpOpAxisInfoVisitor.compare CmpIPredicate.slt l r /\
   CmpOpAxisInfoVisitor.compare CmpIPredicate.ule l r =
     CmpOpAxisInfoVisitor.compare CmpIPredicate.sle l r /\
   CmpOpAxisInfoVisitor.compare CmpIPredicate.ugt l r =
     CmpOpAxisInfoVisitor.compare CmpIPredicate.sgt l r /\
   CmpOpAxisInfoVisitor.compare CmpIPredicate.uge l r =
     CmpOpAxisInfoVisitor.compare CmpIPredicate.sge l r) /\
  (l < 0 /\ 0 <= r ->
   CmpOpAxisInfoVisitor.compare CmpIPredicate.ult l r = false /\
   CmpOpAxisInfoVisitor.compare CmpIPredicate.ule l r = false /\
   CmpOpAxisInfoVisitor.compare CmpIPredicate.ugt l r = true /\
   CmpOpAxisInfoVisitor.compare CmpIPredicate.uge l r = true).
Proof.
  unfold CmpOpAxisInfoVisitor.compare.
  assert (Hb : forall x y,
             (x >=? y) = negb (x <? y) /\ (x >? y) = negb (x <=? y)).
  { intros x y. rewrite Z.geb_leb, Z.gtb_ltb.
    destruct (Z.ltb_spec x y), (Z.leb_spec y x), (Z.leb_spec x y),
      (Z.ltb_spec y x); simpl; split; (reflexivity || lia). }
  split; [|split].
  - repeat split; try reflexivity; apply Hb.
  - intros [[H1 H2]|[H1 H2]].
    + now rewrite !to_unsigned_nonneg by assumption.
    + rewrite !to_unsigned_neg by assumption.
      destruct (Hb (l + 2 ^ 64) (r + 2 ^ 64)) as [-> ->].
      destruct (Hb l r) as [-> ->].
      destruct (Z.ltb_spec (l + 2 ^ 64) (r + 2 ^ 64)), (Z.ltb_spec l r),
        (Z.leb_spec (l + 2 ^ 64) (r + 2 ^ 64)), (Z.leb_spec l r);
        simpl; repeat split; (reflexivity || lia).
  - intros [H1 H2].
    rewrite (to_unsigned_neg l), (to_unsigned_nonneg r) by assumption.
    destruct (Hb (l + 2 ^ 64) r) as [-> ->].
    unfold Int64.in_range, Int64.min_signed, Int64.max_signed in *.
    destruct (Z.ltb_spec (l + 2 ^ 64) r), (Z.leb_spec (l + 2 ^ 64) r);
      simpl; repeat split; (reflexivity || lia).
Qed.

(** The operands -1 and 0. *)
Lemma compare_predicates_witness :
  CmpOpAxisInfoVisitor.compare CmpIPredicate.ult (-1) 0 = false /\
  CmpOpAxisInfoVisitor.compare CmpIPredicate.ule (-1) 0 = false /\
  CmpOpAxisInfoVisitor.compare CmpIPredicate.ugt (-1) 0 = true /\
  CmpOpAxisInfoVisitor.compare CmpIPredicate.uge (-1) 0 = true.
Proof.
  refine (proj2 (proj2 (compare_predicates (-1) 0 _ _)) _);
    [split; vm_compute; discriminate | split; vm_compute; discriminate|].
  split; [reflexivity | vm_compute; discriminate].
Defined.

Lemma AxisInfo_eta (a : AxisInfo) :
  mkAxisInfo (contiguity a) (divisibility a) (constancy a) (constantValue a) = a.
Proof. now destruct a. Qed.

(** X23: a select on a ranked tensor whose condition carries a constant
    returns the record of the chosen branch as it is: the third operand
    when the constant is 0, the second operand otherwise. *)
Theorem select_constant_condition (op : Operation) (shape : list Z)
    (layout : Encoding) (cond lhs rhs : AxisInfo) (c : Z)
    (Hty : resultType op = RankedTensorType shape layout)
    (Hc : constantValue cond = Some c) :
  SelectOpAxisInfoVisitor.getAxisInfo op [cond; lhs; rhs] =
    Done (if c =? 0 then rhs else lhs).
Proof.
  unfold SelectOpAxisInfoVisitor.getAxisInfo. rewrite Hty. simpl.
  rewrite Hc. destruct (c =? 0); now rewrite AxisInfo_eta.
Qed.

(** A condition that is 0 everywhere. *)
Lemma select_constant_condition_witness :
  SelectOpAxisInfoVisitor.getAxisInfo example_select
    [zero_everywhere; contiguous8; constant8] =
    Done (if 0 =? 0 then constant8 else contiguous8).
Proof.
  apply (select_constant_condition example_select [8] blocked_layout
           zero_everywhere contiguous8 constant8 0); reflexivity.
Defined.

(** X24: a select on a ranked tensor whose condition carries no constant:
    along an axis where the entries of both branches and the constancy of
    the condition are at least 1, the contiguity and the constancy of the
    result are at least 1, at most those of either branch, and divide the
    constancy of the condition; the divisibility is the smaller of the
    two; a constant value is kept exactly when both branches carry it. *)
Theorem select_bounds (op : Operation) (shape : list Z) (layout : Encoding)
    (cond lhs rhs : AxisInfo) (d : nat)
    (Hty : resultType op = RankedTensorType shape layout)
    (Hn : constantValue cond = None)
    (Hd : (d < length shape)%nat)
    (Hcond : 1 <= Info.getConstancy cond d)
    (HcL : 1 <= Info.getContiguity lhs d) (HcR : 1 <= Info.getContiguity rhs d)
    (HkL : 1 <= Info.getConstancy lhs d) (HkR : 1 <= Info.getConstancy rhs d) :
  exists r,
    SelectOpAxisInfoVisitor.getAxisInfo op [cond; lhs; rhs] = Done r /\
    Info.getRank r = length shape /\
    well_formed r /\
    (1 <= Info.getContiguity r d /\
     Info.getContiguity r d <= Z.min (Info.getContiguity lhs d) (Info.getContiguity rhs d) /\
     (Info.getContiguity r d | Info.getConstancy cond d)) /\
    (1 <= Info.getConstancy r d /\
     Info.getConstancy r d <= Z.min (Info.getConstancy lhs d) (Info.getConstancy rhs d) /\
     (Info.getConstancy r d | Info.getConstancy cond d)) /\
    Info.getDivisibility r d =
      Z.min (Info.getDivisibility lhs d) (Info.getDivisibility rhs d) /\
    (forall v, constantValue r = Some v <->
               constantValue lhs = Some v /\ constantValue rhs = Some v).
Proof.
  unfold SelectOpAxisInfoVisitor.getAxisInfo. rewrite Hty. simpl. rewrite Hn.
  eexists. split; [reflexivity|].
  unfold well_formed, Info.getRank.
  cbn [contiguity divisibility constancy constantValue].
  rewrite !for_each_dim_length.
  split; [reflexivity|]. split; [split; reflexivity|].
  unfold Info.getContiguity, Info.getConstancy, Info.getDivisibility in *.
  cbn [contiguity divisibility constancy constantValue].
  rewrite !for_each_dim_nth by assumption.
  assert (Hmin : forall x y, 1 <= x -> 1 <= y ->
            1 <= Z.min (gcd x (nth d (constancy cond) 0))
                       (gcd y (nth d (constancy cond) 0)) /\
            Z.min (gcd x (nth d (constancy cond) 0))
                  (gcd y (nth d (constancy cond) 0)) <= Z.min x y /\
            (Z.min (gcd x (nth d (constancy cond) 0))
                   (gcd y (nth d (constancy cond) 0)) | nth d (constancy cond) 0)).
  { intros x y Hx Hy. set (c := nth d (constancy cond) 0) in *.
    pose proof (gcd_pos x c Hx Hcond). pose proof (gcd_pos y c Hy Hcond).
    pose proof (gcd_le_l x c Hx ltac:(lia)).
    pose proof (gcd_le_l y c Hy ltac:(lia)).
    split; [lia|]. split; [lia|].
    destruct (Z.min_spec (gcd x c) (gcd y c)) as [[_ ->]|[_ ->]];
      apply gcd_divide_r. }
  split; [now apply Hmin|]. split; [now apply Hmin|]. split; [reflexivity|].
  intros v. destruct (constantValue lhs) as [u|], (constantValue rhs) as [w|];
    simpl; try (split; [discriminate|intros [? ?]; discriminate]).
  destruct (Z.eqb_spec u w) as [->|Hne]; split.
  - intros E. now split.
  - now intros [E _].
  - discriminate.
  - intros [E1 E2]. congruence.
Qed.

(** Two branches of runs of 8 under a condition constant over 8. *)
Lemma select_bounds_witness :
  exists r,
    SelectOpAxisInfoVisitor.getAxisInfo example_select
      [constant8; contiguous8; contiguous8] = Done r /\
    Info.getRank r = length [8] /\
    well_formed r /\
    (1 <= Info.getContiguity r 0 /\
     Info.getContiguity r 0 <=
       Z.min (Info.getContiguity contiguous8 0) (Info.getContiguity contiguous8 0) /\
     (Info.getContiguity r 0 | Info.getConstancy constant8 0)) /\
    (1 <= Info.getConstancy r 0 /\
     Info.getConstancy r 0 <=
       Z.min (Info.getConstancy contiguous8 0) (Info.getConstancy contiguous8 0) /\
     (Info.getConstancy r 0 | Info.getConstancy constant8 0)) /\
    Info.getDivisibility r 0 =
      Z.min (Info.getDivisibility contiguous8 0) (Info.getDivisibility contiguous8 0) /\
    (forall v, constantValue r = Some v <->
               constantValue contiguous8 = Some v /\ constantValue contiguous8 = Some v).
Proof.
  apply (select_bounds example_select [8] blocked_layout constant8
           contiguous8 contiguous8 0);
    try reflexivity; try (simpl; lia); vm_compute; discriminate.
Defined.

(** * Further properties of the alignment queries *)

Lemma UInt32_of_Z_range z : 0 <= UInt32.of_Z z < 2 ^ 32.
Proof. unfold UInt32.of_Z, UInt32.modulus. apply Z.mod_pos_bound. lia. Qed.

(** X25: whatever the store, a mask alignment that is returned lies in
    [1, 2^32), a pointer alignment in [0, 2^32), and a vector size is
    non-negative and never exceeds the pointer alignment of the same
    value; a query on a ranked tensor returns exactly when the value has
    a slot in the store. *)
Theorem alignment_bounds (store : Store) (v : Value) :
  (forall a, getMaskAlignment store v = Done a -> 1 <= a < 2 ^ 32) /\
  (forall a, getPtrAlignment store v = Done a -> 0 <= a < 2 ^ 32) /\
  (forall n, getPtrVectorSize store v = Done n ->
     exists a, getPtrAlignment store v = Done a /\ 0 <= n <= a) /\
  (forall shape layout, getType v = RankedTensorType shape layout ->
     ((exists a, getPtrAlignment store v = Done a) <-> is_Some (store !! valueId v)) /\
     ((exists a, getMaskAlignment store v = Done a) <-> is_Some (store !! valueId v)) /\
     ((exists n, getPtrVectorSize store v = Done n) <-> is_Some (store !! valueId v))).
Proof.
  unfold getMaskAlignment, getPtrVectorSize, getPtrAlignment, lookupLatticeElement.
  destruct (getType v) as [shape layout|].
  - destruct (store !! valueId v) as [e|] eqn:E; cbn [exec_bind].
    + split; [|split; [|split]].
      * intros a [= <-].
        pose proof (UInt32_of_Z_range
                      (Info.getConstancy (getValue e) (fastestAxis layout))). lia.
      * intros a [= <-]. apply UInt32_of_Z_range.
      * intros n [= <-]. eexists. split; [reflexivity|].
        pose proof (UInt32_of_Z_range
                      (Z.min (Info.getDivisibility (getValue e) (fastestAxis layout))
                             (Info.getContiguity (getValue e) (fastestAxis layout)))).
        pose proof (UInt32_of_Z_range
                      (nth (fastestAxis layout) (getSizePerThread layout) 0)).
        pose proof (UInt32_of_Z_range (nth (fastestAxis layout) shape 0)).
        lia.
      * intros shape' layout' _.
        repeat split; intros _; try (eexists; reflexivity); now exists e.
    + split; [|split; [|split]]; try (intros ? H; discriminate H).
      intros shape' layout' _.
      repeat split; try (intros [? H]; discriminate H);
        intros [? H]; discriminate H.
  - split; [|split; [|split]].
    + intros a [= <-]. lia.
    + intros a [= <-]. lia.
    + intros n [= <-]. exists 1. split; [reflexivity|lia].
    + intros shape layout H. discriminate H.
Qed.

(** X26: for a ranked tensor with a slot, when the minimum of the
    divisibility and the contiguity along [order[0]], the elements per
    thread and the extent along [order[0]] all lie in [0, 2^32), the
    vector size is the minimum of the three. *)
Theorem vector_size_is_min (store : Store) (v : Value) (shape : list Z)
    (layout : Encoding) (e : LatticeElement)
    (Hty : getType v = RankedTensorType shape layout)
    (Hslot : store !! valueId v = Some e)
    (Halign : 0 <= Z.min (Info.getDivisibility (getValue e) (fastestAxis layout))
                         (Info.getContiguity (getValue e) (fastestAxis layout))
              < 2 ^ 32)
    (Hthread : 0 <= nth (fastestAxis layout) (getSizePerThread layout) 0 < 2 ^ 32)
    (Hextent : 0 <= nth (fastestAxis layout) shape 0 < 2 ^ 32) :
  getPtrVectorSize store v =
    Done (Z.min (nth (fastestAxis layout) shape 0)
            (Z.min (Z.min (Info.getDivisibility (getValue e) (fastestAxis layout))
                          (Info.getContiguity (getValue e) (fastestAxis layout)))
                   (nth (fastestAxis layout) (getSizePerThread layout) 0))).
Proof.
  unfold getPtrVectorSize, getPtrAlignment, lookupLatticeElement.
  rewrite Hty, Hslot. cbn [exec_bind].
  now rewrite !UInt32_of_Z_small by assumption.
Qed.

(** The worked example of the specification: alignment 8, 4 elements per
    thread, extent 32. *)
Lemma vector_size_is_min_witness :
  getPtrVectorSize ptr32_store ptr32 = Done 4.
Proof.
  apply (vector_size_is_min ptr32_store ptr32 [32] blocked_layout ptr32_slot);
    try reflexivity; (split; [vm_compute; discriminate|reflexivity]).
Defined.

(** * Slots the entry point leaves alone *)

Lemma markAllPessimisticFixpoint_other values store id :
  ~ In id (map valueId values) ->
  snd (markAllPessimisticFixpoint values store) !! id = store !! id.
Proof.
  revert store. induction values as [|v rest IH]; intros store Hid.
  - reflexivity.
  - rewrite markAllPessimisticFixpoint_cons. simpl in Hid.
    rewrite IH by tauto. apply lookup_insert_ne. tauto.
Qed.

Lemma joinResults_other curr values result store c store' id :
  ~ In id (map valueId values) ->
  joinResults curr values result store = Done (c, store') ->
  store' !! id = store !! id.
Proof.
  revert result store. induction values as [|v rest IH]; intros result store Hid Hj.
  - simpl in Hj. now injection Hj as _ <-.
  - simpl in Hj, Hid. apply exec_bind_Done in Hj as ([c1 e1] & _ & Hrest).
    rewrite (IH _ _ ltac:(tauto) Hrest). apply lookup_insert_ne. tauto.
Qed.

(** X27: the entry point writes only the slots of the results of the
    operation it visits: whenever it returns, the slot of every other
    value identifier is as it was, and the operand records are not
    stored anywhere. *)
Theorem visitOperation_frame (U : Utility) (op : Operation)
    (operands : list AxisInfo) (store store' : Store) (change : ChangeResult)
    (id : positive)
    (Hvisit : visitOperation op operands store = Done (change, store'))
    (Hid : ~ In id (map valueId (getResults op))) :
  store' !! id = store !! id.
Proof.
  unfold visitOperation in Hvisit.
  apply exec_bind_Done in Hvisit as (curr & _ & Hvisit).
  destruct (Info.getRank curr =? 0)%nat.
  - injection Hvisit as Hm. change store' with (snd (change, store')).
    rewrite <- Hm. now apply markAllPessimisticFixpoint_other.
  - now apply (joinResults_other curr (getResults op) NoChange store change store').
Qed.

(** A compare visited on a store that holds the slot of another value. *)
Lemma visitOperation_frame_witness :
  (<[valueId scalar_value := fixedSlot scalar_value]> ptr32_store)
    !! valueId ptr32 = ptr32_store !! valueId ptr32.
Proof.
  apply (visitOperation_frame no_power_of_two_info scalar_cmp
           [example_A; example_B] ptr32_store
           (<[valueId scalar_value := fixedSlot scalar_value]> ptr32_store)
           Change (valueId ptr32)).
  - reflexivity.
  - simpl. intros [H|[]]. discriminate H.
Defined.

(** * Constants *)

(** X28: every record returned for a constant is well-formed; when it is
    known it carries a constant value, which fits [int64_t], and its
    contiguity is 1 on every axis; a boolean constant folds to 0 or 1. *)
Theorem constant_result (U : Utility) (attr : ConstantAttr)
    (operands : list AxisInfo) :
  exists r,
    ConstantOpAxisInfoVisitor.getAxisInfo attr operands = Done r /\
    well_formed r /\
    Forall (fun x => x = 1) (contiguity r) /\
    (Info.known r = true ->
     exists value, constantValue r = Some value /\ Int64.in_range value) /\
    (forall b, attr = BoolAttr b ->
               constantValue r = Some (if b then 1 else 0)).
Proof.
  unfold ConstantOpAxisInfoVisitor.getAxisInfo.
  destruct attr as [v|b|[|] v shape|]; eexists; (split; [reflexivity|]);
    unfold well_formed, Info.known, Info.getRank, DimVectorT;
    cbn [contiguity divisibility constancy constantValue];
    rewrite ?repeat_length;
    (split; [split; reflexivity|]);
    (split; [first [apply repeat_Forall_eq | repeat constructor]|]);
    (split; [|intros b' H; try discriminate H]);
    try (intros _; eexists; split; [reflexivity|apply Int64_wrap_in_range]);
    try (intros H; discriminate H).
  - intros _. exists (if b then 1 else 0). split; [reflexivity|].
    destruct b; vm_compute; split; discriminate.
  - now injection H as <-.
Qed.
